(** * Feedback and telemetry analytics: a shallow embedding

    The development follows the JavaScript sources module by module:

    - [JsNumber]: the IEEE-754 doubles of JavaScript and the built-ins the
      analytics code calls on them ([Math.min], [Math.max],
      [parseFloat(x.toFixed(2))], array lengths);
    - [JsArray]: the stable [Array.prototype.sort] and [slice];
    - [JsString]: [toLowerCase], [trim], [split] on a character class and
      [join], over ASCII text;
    - [SentimentAnalysis]: [utils/sentimentAnalysis.js];
    - [AspectAnalysis]: the aspect classifier built on top of it;
    - [LogAnalyzer]: [utils/logAnalyzer.js];
    - [FeedbackCollector]: [utils/feedbackCollector.js];
    - [FeedbackAnalyzer]: the [FeedbackAnalyzer] class;
    - [SentimentSpec], [AspectSpec], [LogSpec], [FeedbackSpec]: the
      vocabulary of the statements and the sample data they are tried on.

    The properties follow the definitions, one section per component.

    Numbers that the code only adds, divides and compares are primitive
    binary64 floats, so that concrete runs evaluate to the very doubles a
    JavaScript engine produces.  The priority score of [FeedbackAnalyzer]
    goes through [Math.exp]; it is modelled over the real numbers. *)

From Stdlib Require Import Bool List Arith ZArith Lia.
From Stdlib Require Import Ascii String.
From Stdlib Require Import Floats Uint63.
From Stdlib Require Import Sorted Permutation.
From Stdlib Require Import Reals Lra.
Import ListNotations.

Set Warnings "-inexact-float".

(* ------------------------------------------------------------------ *)
(** ** JavaScript numbers *)

Module JsNumber.

Local Open Scope float_scope.

(** Array lengths and counters are integers below [2^32]; they are kept
    as [nat], where [Math.max] of two of them is [Nat.max], and enter
    float arithmetic through [of_nat], the double of that value (exact
    below [2^53]). *)
Definition of_nat (n : nat) : float :=
  PrimFloat.of_uint63 (Uint63.of_Z (Z.of_nat n)).

Definition is_zero (x : float) : bool := PrimFloat.eqb x 0.

(** [Math.max(a, b)]: NaN is contagious and [+0] is larger than [-0]. *)
Definition Math_max (a b : float) : float :=
  if PrimFloat.is_nan a || PrimFloat.is_nan b then nan
  else if PrimFloat.ltb a b then b
  else if PrimFloat.ltb b a then a
  else if is_zero a then a + b
  else a.

(** [Math.min(a, b)]: NaN is contagious and [-0] is smaller than [+0]. *)
Definition Math_min (a b : float) : float :=
  if PrimFloat.is_nan a || PrimFloat.is_nan b then nan
  else if PrimFloat.ltb a b then a
  else if PrimFloat.ltb b a then b
  else if is_zero a then - ((- a) + (- b))
  else a.

(** The integer [n] for which [n / 100] is nearest to [m * 2^e], the
    larger one on a tie (the rounding step of [Number.prototype.toFixed]). *)
Definition hundredths (m : positive) (e : Z) : Z :=
  if (0 <=? e)%Z then (100 * Z.pos m * 2 ^ e)%Z
  else ((200 * Z.pos m + 2 ^ (- e)) / 2 ^ (- e + 1))%Z.

(** [parseFloat(x.toFixed(2))].  [toFixed] rounds the magnitude, half up,
    to two decimals and prints it; [parseFloat] reads the decimal back as
    the nearest double, which is the correctly rounded quotient of the
    integer number of hundredths by [100].  From [2^53] hundredths on the
    decimal printed is closer to [x] than to any other double. *)
Definition toFixed2 (x : float) : float :=
  match Prim2SF x with
  | S754_zero _ => 0
  | S754_infinity _ => x
  | S754_nan => nan
  | S754_finite s m e =>
      let n := hundredths m e in
      if (n <? 2 ^ 53)%Z then
        let r := PrimFloat.of_uint63 (Uint63.of_Z n) / 100 in
        if s then - r else r
      else x
  end.

End JsNumber.

(* ------------------------------------------------------------------ *)
(** ** JavaScript strings

    Text is a [string] of 8-bit characters.  Characters above 127 stand for
    the bytes of non-ASCII text: they are not word characters, no ASCII
    pattern matches them and [toLowerCase] leaves them alone (JavaScript
    agrees except for U+0130 and U+212A, whose lower case is ASCII). *)

Module JsString.

Local Open Scope nat_scope.

Definition code (c : ascii) : nat := nat_of_ascii c.

Definition between (lo hi : nat) (c : ascii) : bool :=
  (lo <=? code c) && (code c <=? hi).

Definition isDigit : ascii -> bool := between 48 57.
Definition isUpper : ascii -> bool := between 65 90.
Definition isLower : ascii -> bool := between 97 122.

(** The class [\w]: letters, digits and the underscore. *)
Definition isWordChar (c : ascii) : bool :=
  isDigit c || isUpper c || isLower c || (code c =? 95).

(** The class [\W]. *)
Definition isNonWord (c : ascii) : bool := negb (isWordChar c).

(** The class [[.!?]]. *)
Definition isSentenceEnd (c : ascii) : bool :=
  (code c =? 46) || (code c =? 33) || (code c =? 63).

(** ASCII white space, as [String.prototype.trim] strips it. *)
Definition isSpace (c : ascii) : bool :=
  (code c =? 32) || between 9 13 c.

(** [toLowerCase] on one character of the ASCII range: only [A-Z] change.
    Characters from 128 on are left as they are, so [toLowerCase] below is
    [String.prototype.toLowerCase] on ASCII text; statements that compare a
    text with its lower-case form are about such text. *)
Definition lowerChar (c : ascii) : ascii :=
  if isUpper c then ascii_of_nat (code c + 32) else c.

Fixpoint toLowerCase (s : string) : string :=
  match s with
  | EmptyString => EmptyString
  | String c r => String (lowerChar c) (toLowerCase r)
  end.

(** [s.split(/[sep]+/)]: the pieces between maximal runs of separator
    characters.  A leading or trailing run leaves an empty piece at that
    end, and the empty string splits into one empty piece. *)
Fixpoint split (sep : ascii -> bool) (s : string) : list string :=
  match s with
  | EmptyString => [EmptyString]
  | String c r =>
      let rest := split sep r in
      if sep c then
        match r with
        | String c' _ => if sep c' then rest else EmptyString :: rest
        | EmptyString => EmptyString :: rest
        end
      else
        match rest with
        | t :: ts => String c t :: ts
        | [] => [String c EmptyString]
        end
  end.

Fixpoint trimStart (s : string) : string :=
  match s with
  | String c r => if isSpace c then trimStart r else s
  | EmptyString => EmptyString
  end.

(** Drops trailing white space: the result is empty exactly when only
    white space follows. *)
Fixpoint trimEnd (s : string) : string :=
  match s with
  | EmptyString => EmptyString
  | String c r =>
      match trimEnd r with
      | EmptyString => if isSpace c then EmptyString else String c EmptyString
      | r' => String c r'
      end
  end.

(** [s.trim()], for the white space of the ASCII range. *)
Definition trim (s : string) : string := trimEnd (trimStart s).

(** [parts.join(sep)]. *)
Fixpoint join (sep : string) (parts : list string) : string :=
  match parts with
  | [] => EmptyString
  | [p] => p
  | p :: ps => p ++ sep ++ join sep ps
  end.

(** [arr.includes(x)] on an array of strings. *)
Definition includes (arr : list string) (x : string) : bool :=
  existsb (String.eqb x) arr.

End JsString.

(* ------------------------------------------------------------------ *)
(** ** JavaScript arrays *)

Module JsArray.

Section Sort.
Context {A : Type}.

(** [before x y] holds when the comparator puts [x] no later than [y],
    that is [compare(x, y) <= 0]. *)
Variable before : A -> A -> bool.

Fixpoint insert (x : A) (l : list A) : list A :=
  match l with
  | [] => [x]
  | y :: r => if before x y then x :: l else y :: insert x r
  end.

(** [arr.sort(compare)]: the sort is stable, so each element goes in
    front of the first later element the comparator does not put
    before it. *)
Definition sort (l : list A) : list A := fold_right insert [] l.

End Sort.

(** [arr.slice(0, n)]. *)
Definition slice0 {A : Type} (n : nat) (l : list A) : list A := firstn n l.

End JsArray.

(* ------------------------------------------------------------------ *)
(** ** utils/sentimentAnalysis.js *)

Module SentimentAnalysis.

Import JsNumber JsString.
Local Open Scope string_scope.
Local Open Scope float_scope.

Definition POSITIVE_KEYWORDS : list (string * float) :=
  [ ("excellent", 1.0); ("amazing", 1.0); ("great", 0.8); ("good", 0.5);
    ("nice", 0.5); ("decent", 0.3); ("friendly", 0.6); ("clean", 0.4);
    ("recommend", 0.7); ("delicious", 0.8); ("fantastic", 0.9);
    ("helpful", 0.6); ("professional", 0.7) ].

Definition NEGATIVE_KEYWORDS : list (string * float) :=
  [ ("terrible", -1.0); ("horrible", -1.0); ("bad", -0.7); ("poor", -0.6);
    ("dirty", -0.6); ("rude", -0.8); ("slow", -0.4); ("expensive", -0.5);
    ("disappointing", -0.7); ("awful", -0.9); ("mediocre", -0.4);
    ("unprofessional", -0.7) ].

(** [Map.prototype.get]; [None] is [undefined], and [has] is [get] being
    defined (no key is bound to [undefined]). *)
Fixpoint get (m : list (string * float)) (k : string) : option float :=
  match m with
  | [] => None
  | (k', v) :: r => if String.eqb k' k then Some v else get r k
  end.

Definition has (m : list (string * float)) (k : string) : bool :=
  match get m k with Some _ => true | None => false end.

Record MatchedWord := { word : string; wscore : float }.

Record Sentiment := {
  score : float;
  matchedWords : list MatchedWord;
  confidence : float
}.

(** The state of the loop over the words: [totalScore], [matchedWords]. *)
Definition Acc : Type := float * list MatchedWord.

(** One iteration of [for (const word of words)]. *)
Definition step (acc : Acc) (w : string) : Acc :=
  let (totalScore, matched) := acc in
  match get POSITIVE_KEYWORDS w with
  | Some v => (totalScore + v, (matched ++ [{| word := w; wscore := v |}])%list)
  | None =>
      match get NEGATIVE_KEYWORDS w with
      | Some v => (totalScore + v, (matched ++ [{| word := w; wscore := v |}])%list)
      | None => acc
      end
  end.

Definition words (text : string) : list string :=
  split isNonWord (toLowerCase text).

Definition analyzeSentiment (text : string) : Sentiment :=
  let (totalScore, matched) := fold_left step (words text) (0, []) in
  let len := List.length matched in
  let normalizedScore :=
    if (0 <? len)%nat then totalScore / of_nat (Nat.max len 1) else 0 in
  {| score := toFixed2 normalizedScore;
     matchedWords := matched;
     confidence := Math_min (of_nat len / 3) 1 |}.

End SentimentAnalysis.

(* ------------------------------------------------------------------ *)
(** ** The aspect classifier ([analyzeAspects], [generateAspectSummary]) *)

Module AspectAnalysis.

Import JsNumber JsString.
Local Open Scope string_scope.
Local Open Scope list_scope.

Definition ASPECT_KEYWORDS : list (string * list string) :=
  [ ("service",
     [ "service"; "staff"; "waiter"; "waitress"; "server"; "host";
       "hostess"; "employee"; "attention"; "responsive"; "quick";
       "slow"; "friendly"; "rude"; "helpful"; "attentive" ]);
    ("food",
     [ "food"; "dish"; "meal"; "taste"; "flavor"; "delicious";
       "portion"; "menu"; "cuisine"; "appetizer"; "entree";
       "dessert"; "drink"; "beverage"; "fresh"; "stale" ]);
    ("pricing",
     [ "price"; "value"; "expensive"; "cheap"; "affordable";
       "overpriced"; "cost"; "worth"; "deal"; "bargain";
       "pricey"; "reasonable"; "fair"; "money" ]);
    ("ambiance",
     [ "ambiance"; "atmosphere"; "decor"; "music"; "noise";
       "lighting"; "comfortable"; "clean"; "dirty"; "cozy";
       "crowded"; "quiet"; "romantic"; "space"; "interior" ]);
    ("location",
     [ "location"; "parking"; "accessible"; "neighborhood";
       "area"; "street"; "downtown"; "distance"; "convenient";
       "nearby"; "far"; "close" ]) ].

(** One container of [aspectResults]. *)
Record AspectData := {
  sentences : list string;
  matchedKeywords : list string;   (* a [Set], in insertion order *)
  sentimentScore : float;
  mentionCount : nat
}.

Definition emptyData : AspectData :=
  {| sentences := []; matchedKeywords := [];
     sentimentScore := 0%float; mentionCount := 0 |}.

(** [set.add(x)]. *)
Definition setAdd (s : list string) (x : string) : list string :=
  if includes s x then s else s ++ [x].

(** Objects keyed by aspect name, in insertion order. *)
Definition Obj (V : Type) : Type := list (string * V).

Fixpoint update {V : Type} (o : Obj V) (k : string) (f : V -> V) : Obj V :=
  match o with
  | [] => []
  | (k', v) :: r =>
      if String.eqb k' k then (k', f v) :: r else (k', v) :: update r k f
  end.

Fixpoint lookup {V : Type} (o : Obj V) (k : string) : option V :=
  match o with
  | [] => None
  | (k', v) :: r => if String.eqb k' k then Some v else lookup r k
  end.

Definition splitSentences (reviewText : string) : list string :=
  filter (fun s => (0 <? String.length s)%nat)
    (map trim (split isSentenceEnd (toLowerCase reviewText))).

(** The body of the inner loop, for one sentence and one aspect. *)
Definition visitAspect (sentence : string) (ws : list string)
    (results : Obj AspectData) (entry : string * list string) : Obj AspectData :=
  let (aspect, keywords) := entry in
  let matches := filter (includes ws) keywords in
  if (0 <? List.length matches)%nat then
    update results aspect (fun d =>
      {| sentences := sentences d ++ [sentence];
         matchedKeywords := fold_left setAdd matches (matchedKeywords d);
         sentimentScore := sentimentScore d;
         mentionCount := mentionCount d + 1 |})
  else results.

Definition visitSentence (results : Obj AspectData) (sentence : string)
    : Obj AspectData :=
  let ws := split isNonWord sentence in
  fold_left (visitAspect sentence ws) ASPECT_KEYWORDS results.

Record AspectResult := {
  score : float;
  confidence : float;
  mentions : nat;
  keywords : list string;
  relevantText : list string
}.

Definition resultOf (d : AspectData) : AspectResult :=
  let combinedText := join ". " (sentences d) in
  let sentimentAnalysis := SentimentAnalysis.analyzeSentiment combinedText in
  {| score := SentimentAnalysis.score sentimentAnalysis;
     confidence := SentimentAnalysis.confidence sentimentAnalysis;
     mentions := mentionCount d;
     keywords := matchedKeywords d;
     relevantText := sentences d |}.

Record Dominant := { aspect : string; dmentions : nat; dscore : float }.

Record Summary := {
  overallScore : float;
  dominantAspects : list Dominant
}.

(** [null] is [None]. *)
Definition generateAspectSummary (aspectResults : Obj AspectResult)
    : option Summary :=
  let aspects := aspectResults in
  if (List.length aspects =? 0)%nat then None
  else
    let totalScore :=
      fold_left (fun sum e => (sum + score (snd e))%float) aspects 0%float in
    let mentionedAspects := List.length aspects in
    Some
      {| overallScore :=
           toFixed2 (totalScore / of_nat mentionedAspects)%float;
         dominantAspects :=
           map (fun e => {| aspect := fst e; dmentions := mentions (snd e);
                            dscore := score (snd e) |})
             (JsArray.slice0 2
                (JsArray.sort
                   (fun a b => (mentions (snd b) <=? mentions (snd a))%nat)
                   aspects)) |}.

Record Analysis := {
  aspects : Obj AspectResult;
  summary : option Summary
}.

Definition analyzeAspects (reviewText : string) : Analysis :=
  let sents := splitSentences reviewText in
  let init := map (fun e => (fst e, emptyData)) ASPECT_KEYWORDS in
  let aspectResults := fold_left visitSentence sents init in
  let results :=
    flat_map (fun e =>
                if (0 <? List.length (sentences (snd e)))%nat
                then [(fst e, resultOf (snd e))] else [])
      aspectResults in
  {| aspects := results; summary := generateAspectSummary results |}.

End AspectAnalysis.

(* ------------------------------------------------------------------ *)
(** ** utils/logAnalyzer.js *)

Module LogAnalyzer.

Import JsNumber JsString.
Local Open Scope string_scope.
Local Open Scope list_scope.

(** *** The error patterns

    Each pattern is an alternation of sequences of literal characters and
    [\d], matched anywhere in the subject and ignoring case ([/.../i]).
    None carries the [g] flag, so [test] keeps no state between calls. *)

Inductive Atom :=
| Lit (c : ascii)      (* a literal character, compared ignoring case *)
| Digit.               (* [\d] *)

Definition Regex : Type := list (list Atom).

Definition lit (s : string) : list Atom := map Lit (list_ascii_of_string s).

Definition matchAtom (a : Atom) (c : ascii) : bool :=
  match a with
  | Lit x => Ascii.eqb (lowerChar x) (lowerChar c)
  | Digit => isDigit c
  end.

(** The sequence matches a prefix of [s]. *)
Fixpoint matchHere (alt : list Atom) (s : string) : bool :=
  match alt, s with
  | [], _ => true
  | _ :: _, EmptyString => false
  | a :: alt', String c r => matchAtom a c && matchHere alt' r
  end.

(** The sequence matches at some position of [s]. *)
Fixpoint matchAnywhere (alt : list Atom) (s : string) : bool :=
  matchHere alt s ||
  match s with
  | EmptyString => false
  | String _ r => matchAnywhere alt r
  end.

(** [pattern.test(s)]. *)
Definition test (pattern : Regex) (s : string) : bool :=
  existsb (fun alt => matchAnywhere alt s) pattern.

Inductive Category := timeout | memory | database | api | security | other.

(** [this.errorPatterns], in the order [Object.entries] enumerates it. *)
Definition errorPatterns : list (Category * Regex) :=
  [ (timeout,  [lit "timeout"; lit "timed out"]);
    (memory,   [lit "out of memory"; lit "memory limit"]);
    (database, [lit "database error"; lit "connection refused"; lit "deadlock"]);
    (api,      [lit "api error"; lit "rate limit"; lit "429";
                [Lit "5"%char; Digit; Digit]]);
    (security, [lit "unauthorized"; lit "forbidden"; lit "invalid token"]) ].

Record Thresholds := {
  t_request : float; t_query : float; t_memory : float; t_cpu : float
}.

Definition performanceThresholds : Thresholds :=
  {| t_request := 2000; t_query := 1000; t_memory := 500; t_cpu := 80 |}.

(** *** Log entries and results *)

(** A parsed log line.  Optional fields are [None] when the line lacks
    them.  [timestamp] is a non-empty ISO-8601 string, as the loggers write
    it (so it is truthy whenever present), given by the instant, in
    milliseconds since the epoch, that [new Date(entry.timestamp)]
    denotes. *)
Record LogEntry := {
  level : string;
  message : string;
  path : option string;
  timestamp : option Z;
  duration : option float;
  type : option string;
  query : option string;
  memoryHeapUsed : option float;    (* [entry.memory.heapUsed] *)
  cpuUsage : option float           (* [entry.cpu.usage] *)
}.

Record ErrorCounts := {
  n_timeout : nat; n_memory : nat; n_database : nat;
  n_api : nat; n_security : nat; n_other : nat
}.

Definition count (c : Category) (e : ErrorCounts) : nat :=
  match c with
  | timeout => n_timeout e | memory => n_memory e
  | database => n_database e | api => n_api e
  | security => n_security e | other => n_other e
  end.

(** [results.errors[errorType]++]. *)
Definition bump (c : Category) (e : ErrorCounts) : ErrorCounts :=
  match c with
  | timeout =>
      {| n_timeout := S (n_timeout e); n_memory := n_memory e;
         n_database := n_database e; n_api := n_api e;
         n_security := n_security e; n_other := n_other e |}
  | memory =>
      {| n_timeout := n_timeout e; n_memory := S (n_memory e);
         n_database := n_database e; n_api := n_api e;
         n_security := n_security e; n_other := n_other e |}
  | database =>
      {| n_timeout := n_timeout e; n_memory := n_memory e;
         n_database := S (n_database e); n_api := n_api e;
         n_security := n_security e; n_other := n_other e |}
  | api =>
      {| n_timeout := n_timeout e; n_memory := n_memory e;
         n_database := n_database e; n_api := S (n_api e);
         n_security := n_security e; n_other := n_other e |}
  | security =>
      {| n_timeout := n_timeout e; n_memory := n_memory e;
         n_database := n_database e; n_api := n_api e;
         n_security := S (n_security e); n_other := n_other e |}
  | other =>
      {| n_timeout := n_timeout e; n_memory := n_memory e;
         n_database := n_database e; n_api := n_api e;
         n_security := n_security e; n_other := S (n_other e) |}
  end.

Record SlowRequest := { sr_path : option string; sr_duration : float;
                        sr_timestamp : option Z }.
Record SlowQuery := { sq_query : option string; sq_duration : float;
                      sq_timestamp : option Z }.
Record HighMemory := { hm_used : float; hm_timestamp : option Z }.
Record HighCpu := { hc_usage : float; hc_timestamp : option Z }.

Record Performance := {
  slowRequests : list SlowRequest;
  slowQueries : list SlowQuery;
  highMemory : list HighMemory;
  highCpu : list HighCpu
}.

(** A [Map] from strings to counters, in insertion order. *)
Definition Counter : Type := list (string * nat).

(** [m.set(k, (m.get(k) || 0) + 1)]. *)
Fixpoint increment (m : Counter) (k : string) : Counter :=
  match m with
  | [] => [(k, 1)]
  | (k', n) :: r =>
      if String.eqb k' k then (k', n + 1) :: r else (k', n) :: increment r k
  end.

Record Patterns := {
  commonErrors : Counter;
  frequentEndpoints : Counter;
  errorTimes : list Z;
  errorClusters : list (list Z)
}.

Record Results := {
  errors : ErrorCounts;
  performance : Performance;
  patterns : Patterns
}.

(** The [results] object [analyzeLogs] starts from ([errorClusters] is
    not set yet; it is read only after [analyzePatterns] sets it). *)
Definition initialResults : Results :=
  {| errors := {| n_timeout := 0; n_memory := 0; n_database := 0;
                  n_api := 0; n_security := 0; n_other := 0 |};
     performance := {| slowRequests := []; slowQueries := [];
                       highMemory := []; highCpu := [] |};
     patterns := {| commonErrors := []; frequentEndpoints := [];
                    errorTimes := []; errorClusters := [] |} |}.

(** *** analyzeLogEntry *)

(** The loop over [Object.entries(this.errorPatterns)], left at the
    first pattern that matches. *)
Fixpoint classifyWith (ps : list (Category * Regex)) (msg : string) : Category :=
  match ps with
  | [] => other
  | (type, pattern) :: r =>
      if test pattern msg then type else classifyWith r msg
  end.

Definition classify (msg : string) : Category := classifyWith errorPatterns msg.

(** A string is falsy when it is absent or empty. *)
Definition truthyStr (s : option string) : option string :=
  match s with
  | Some EmptyString => None
  | _ => s
  end.

(** A number is falsy when it is absent, zero or NaN. *)
Definition truthyNum (x : option float) : option float :=
  match x with
  | Some v => if PrimFloat.eqb v 0 || PrimFloat.is_nan v then None else x
  | None => None
  end.

Definition isType (e : LogEntry) (t : string) : bool :=
  match type e with Some t' => String.eqb t' t | None => false end.

Definition trackError (entry : LogEntry) (r : Results) : Results :=
  if String.eqb (level entry) "error" then
    let errorType := classify (message entry) in
    let errorKey :=
      (match truthyStr (path entry) with Some p => p | None => "unknown" end
       ++ ": " ++ message entry)%string in
    {| errors := bump errorType (errors r);
       performance := performance r;
       patterns :=
         {| commonErrors := increment (commonErrors (patterns r)) errorKey;
            frequentEndpoints := frequentEndpoints (patterns r);
            errorTimes :=
              match timestamp entry with
              | Some t => errorTimes (patterns r) ++ [t]
              | None => errorTimes (patterns r)
              end;
            errorClusters := errorClusters (patterns r) |} |}
  else r.

Definition trackDuration (entry : LogEntry) (p : Performance) : Performance :=
  match truthyNum (duration entry) with
  | Some d =>
      {| slowRequests :=
           if isType entry "request" && PrimFloat.ltb (t_request performanceThresholds) d
           then slowRequests p ++
                [{| sr_path := path entry; sr_duration := d;
                    sr_timestamp := timestamp entry |}]
           else slowRequests p;
         slowQueries :=
           if isType entry "query" && PrimFloat.ltb (t_query performanceThresholds) d
           then slowQueries p ++
                [{| sq_query := query entry; sq_duration := d;
                    sq_timestamp := timestamp entry |}]
           else slowQueries p;
         highMemory := highMemory p;
         highCpu := highCpu p |}
  | None => p
  end.

Definition trackResources (entry : LogEntry) (p : Performance) : Performance :=
  {| slowRequests := slowRequests p;
     slowQueries := slowQueries p;
     highMemory :=
       match memoryHeapUsed entry with
       | Some used =>
           if PrimFloat.ltb (t_memory performanceThresholds * 1024 * 1024)%float used
           then highMemory p ++ [{| hm_used := used; hm_timestamp := timestamp entry |}]
           else highMemory p
       | None => highMemory p
       end;
     highCpu :=
       match cpuUsage entry with
       | Some usage =>
           if PrimFloat.ltb (t_cpu performanceThresholds) usage
           then highCpu p ++ [{| hc_usage := usage; hc_timestamp := timestamp entry |}]
           else highCpu p
       | None => highCpu p
       end |}.

Definition trackEndpoint (entry : LogEntry) (p : Patterns) : Patterns :=
  match truthyStr (path entry) with
  | Some pth =>
      {| commonErrors := commonErrors p;
         frequentEndpoints := increment (frequentEndpoints p) pth;
         errorTimes := errorTimes p;
         errorClusters := errorClusters p |}
  | None => p
  end.

Definition analyzeLogEntry (entry : LogEntry) (results : Results) : Results :=
  let r1 := trackError entry results in
  {| errors := errors r1;
     performance := trackResources entry (trackDuration entry (performance r1));
     patterns := trackEndpoint entry (patterns r1) |}.

(** *** analyzePatterns *)

(** The state of the clustering loop: [clusters] and [currentCluster]. *)
Definition ClusterState : Type := list (list Z) * list Z.

(** One iteration of the loop, for the error time [t]. *)
Definition clusterStep (st : ClusterState) (t : Z) : ClusterState :=
  let (clusters, currentCluster) := st in
  if (List.length currentCluster =? 0)%nat then (clusters, currentCluster ++ [t])
  else
    let lastError := last currentCluster 0%Z in
    let timeDiff := (t - lastError)%Z in
    if (timeDiff <=? 300000)%Z then (clusters, currentCluster ++ [t])
    else
      (if (1 <? List.length currentCluster)%nat
       then clusters ++ [currentCluster] else clusters,
       [t]).

(** The clusters found in the sorted error times: what [clusters] holds
    when the loop ends. *)
Definition findClusters (errorTimes : list Z) : list (list Z) :=
  fst (fold_left clusterStep errorTimes ([], [])).

(** [errorTimes.sort((a, b) => a - b)]. *)
Definition sortTimes (errorTimes : list Z) : list Z :=
  JsArray.sort Z.leb errorTimes.

Definition analyzePatterns (results : Results) : Results :=
  let sorted := sortTimes (errorTimes (patterns results)) in
  {| errors := errors results;
     performance := performance results;
     patterns :=
       {| commonErrors := commonErrors (patterns results);
          frequentEndpoints := frequentEndpoints (patterns results);
          errorTimes := sorted;
          errorClusters := findClusters sorted |} |}.

(** *** generateSummary *)

Record PerformanceIssues := {
  pi_slowRequests : nat; pi_slowQueries : nat;
  pi_highMemory : nat; pi_highCpu : nat
}.

Record Summary := {
  totalErrors : nat;
  errorBreakdown : ErrorCounts;
  performanceIssues : PerformanceIssues;
  mostFrequentErrors : list (string * nat);
  mostFrequentEndpoints : list (string * nat);
  errorClusterCount : nat               (* the field [errorClusters] *)
}.

(** [entries.sort((a, b) => b[1] - a[1]).slice(0, 5)]. *)
Definition top5 (m : Counter) : list (string * nat) :=
  JsArray.slice0 5 (JsArray.sort (fun a b => (snd b <=? snd a)%nat) m).

Definition generateSummary (results : Results) : Summary :=
  let e := errors results in
  {| totalErrors :=
       fold_left Nat.add
         [n_timeout e; n_memory e; n_database e; n_api e; n_security e; n_other e] 0;
     errorBreakdown := e;
     performanceIssues :=
       {| pi_slowRequests := List.length (slowRequests (performance results));
          pi_slowQueries := List.length (slowQueries (performance results));
          pi_highMemory := List.length (highMemory (performance results));
          pi_highCpu := List.length (highCpu (performance results)) |};
     mostFrequentErrors := top5 (commonErrors (patterns results));
     mostFrequentEndpoints := top5 (frequentEndpoints (patterns results));
     errorClusterCount := List.length (errorClusters (patterns results)) |}.

(** *** generateRecommendations *)

Record Recommendation := {
  category : string;
  priority : string;
  issues : list string
}.

Definition databaseRecommendation : Recommendation :=
  {| category := "Database"; priority := "High";
     issues := [ "Frequent database connection errors detected";
                 "Consider implementing connection pooling";
                 "Add retry logic for failed queries";
                 "Monitor connection pool metrics" ] |}.

Definition performanceRecommendation : Recommendation :=
  {| category := "Performance"; priority := "Medium";
     issues := [ "Multiple slow requests detected";
                 "Implement request caching";
                 "Add database query optimization";
                 "Consider implementing pagination" ] |}.

Definition memoryRecommendation : Recommendation :=
  {| category := "Memory"; priority := "High";
     issues := [ "High memory usage detected";
                 "Implement memory leak detection";
                 "Add garbage collection monitoring";
                 "Review large object allocations" ] |}.

Definition apiRecommendation : Recommendation :=
  {| category := "API"; priority := "Medium";
     issues := [ "Frequent API errors detected";
                 "Implement rate limiting";
                 "Add request validation";
                 "Improve error handling" ] |}.

Definition securityRecommendation : Recommendation :=
  {| category := "Security"; priority := "High";
     issues := [ "Security-related errors detected";
                 "Review authentication logic";
                 "Implement request sanitization";
                 "Add security headers" ] |}.

(** [if (cond) recommendations.push(r)]. *)
Definition pushIf (cond : bool) (r : Recommendation)
    (recommendations : list Recommendation) : list Recommendation :=
  if cond then recommendations ++ [r] else recommendations.

Definition generateRecommendations (results : Results) : list Recommendation :=
  let r0 := [] in
  let r1 := pushIf (0 <? n_database (errors results))%nat databaseRecommendation r0 in
  let r2 := pushIf (0 <? List.length (slowRequests (performance results)))%nat
              performanceRecommendation r1 in
  let r3 := pushIf (0 <? List.length (highMemory (performance results)))%nat
              memoryRecommendation r2 in
  let r4 := pushIf (0 <? n_api (errors results))%nat apiRecommendation r3 in
  pushIf (0 <? n_security (errors results))%nat securityRecommendation r4.

(** *** analyzeLogs

    The analysis of the parsed entries of the log files, in reading
    order: the part of [analyzeLogs] after the lines are read and parsed. *)

Record Report := {
  summary : Summary;
  details : Results;
  recommendations : list Recommendation
}.

(** The loop over the parsed entries, [results] being updated in place. *)
Definition analyzeAll (entries : list LogEntry) (results : Results) : Results :=
  fold_left (fun r entry => analyzeLogEntry entry r) entries results.

Definition analyzeEntries (entries : list LogEntry) : Report :=
  let results := analyzeAll entries initialResults in
  let results := analyzePatterns results in
  {| summary := generateSummary results;
     details := results;
     recommendations := generateRecommendations results |}.

End LogAnalyzer.

(* ------------------------------------------------------------------ *)
(** ** utils/feedbackCollector.js *)

Module FeedbackCollector.

Import JsNumber.
Local Open Scope string_scope.

Record Metrics := {
  totalFeedback : nat;
  bugReports : nat;
  featureRequests : nat;
  performanceIssues : nat;
  criticalIssues : nat
}.

(** [this.metrics] as the constructor sets it. *)
Definition initialMetrics : Metrics :=
  {| totalFeedback := 0; bugReports := 0; featureRequests := 0;
     performanceIssues := 0; criticalIssues := 0 |}.

Record Feedback := {
  type : string;
  severity : option string;
  description : string
}.

Definition isCritical (f : Feedback) : bool :=
  match severity f with Some s => String.eqb s "critical" | None => false end.

(** [updateMetrics]: the counters after one more feedback.  The alerts
    that [checkAlertThresholds] raises do not touch the counters. *)
Definition updateMetrics (f : Feedback) (m : Metrics) : Metrics :=
  {| totalFeedback := totalFeedback m + 1;
     bugReports :=
       if String.eqb (type f) "bug" then bugReports m + 1 else bugReports m;
     featureRequests :=
       if String.eqb (type f) "feature" then featureRequests m + 1
       else featureRequests m;
     performanceIssues :=
       if String.eqb (type f) "performance" then performanceIssues m + 1
       else performanceIssues m;
     criticalIssues :=
       if isCritical f then criticalIssues m + 1 else criticalIssues m |}.

(** [resetMetrics]. *)
Definition resetMetrics (m : Metrics) : Metrics := initialMetrics.

Record Statistics := {
  metrics : Metrics;
  errorRate : float;
  criticalRate : float;
  lastUpdated : Z
}.

(** [getStatistics], called at the instant [now]. *)
Definition getStatistics (now : Z) (m : Metrics) : Statistics :=
  {| metrics := m;
     errorRate := (of_nat (bugReports m) / of_nat (totalFeedback m))%float;
     criticalRate := (of_nat (criticalIssues m) / of_nat (totalFeedback m))%float;
     lastUpdated := now |}.

End FeedbackCollector.

(* ------------------------------------------------------------------ *)
(** ** The FeedbackAnalyzer class

    The priority score goes through [Math.exp], so the scores of this
    class are real numbers: the model is the arithmetic the doubles
    approximate.  Counters are [nat], instants are integers, in
    milliseconds since the epoch, and durations are doubles.  [Date.now()]
    is the argument [now]: one reading of the clock serves a whole run.

    The class calls thirteen methods that are defined nowhere; calling one
    raises a [TypeError].  Methods are therefore computations that return
    a value or throw. *)

Module FeedbackAnalyzer.

Local Open Scope string_scope.
Local Open Scope R_scope.

(** [this.thresholds]. *)
Definition errorFrequency : nat := 5.
Definition performanceThreshold : float := 2000.

(** A value of the map [this.patterns.errors]. *)
Record ErrorData := {
  count : nat;
  lastOccurrence : Z;
  endpoints : list string;
  severity : option string
}.

Definition isCritical (s : option string) : bool :=
  match s with Some v => String.eqb v "critical" | None => false end.

Definition dayMs : R := 24 * 60 * 60 * 1000.

Definition frequencyScore (data : ErrorData) : R :=
  Rmin (INR (count data) / INR errorFrequency) 1.

Definition severityScore (data : ErrorData) : R :=
  if isCritical (severity data) then 1 else 0.5.

Definition recencyScore (now : Z) (data : ErrorData) : R :=
  exp (- IZR (now - lastOccurrence data) / dayMs).

(** [calculatePriority(data)]. *)
Definition calculatePriority (now : Z) (data : ErrorData) : R :=
  frequencyScore data * 0.4 + severityScore data * 0.4
  + recencyScore now data * 0.2.

(** An element of the array [analyzeErrorPatterns] returns.  [frequency]
    is [None] when [feedbackData.errors] is empty, where the quotient is
    not a finite number. *)
Record ErrorPattern := {
  type : string;
  p_count : nat;
  frequency : option R;
  p_lastOccurrence : Z;
  affectedEndpoints : list string;
  priority : R
}.

Definition Rleb (x y : R) : bool := if Rle_dec x y then true else false.

(** [analyzeErrorPatterns], from [this.patterns.errors] and
    [this.feedbackData.errors.length]. *)
Definition analyzeErrorPatterns (now : Z) (errors : list (string * ErrorData))
    (nErrors : nat) : list ErrorPattern :=
  let patterns :=
    flat_map (fun e =>
      let (errorType, data) := e : string * ErrorData in
      if (errorFrequency <=? count data)%nat then
        [{| type := errorType;
            p_count := count data;
            frequency :=
              if (nErrors =? 0)%nat then None
              else Some (INR (count data) / INR nErrors);
            p_lastOccurrence := lastOccurrence data;
            affectedEndpoints := endpoints data;
            priority := calculatePriority now data |}]
      else []) errors in
  JsArray.sort (fun a b => Rleb (priority b) (priority a)) patterns.

Record RecMetrics := { m_frequency : option R; m_occurrences : nat }.

Record Recommendation := {
  r_type : string;
  issue : string;
  recommendation : string;
  r_priority : string;
  r_metrics : option RecMetrics
}.

Record Recommendations := {
  immediate : list Recommendation;
  high : list Recommendation;
  medium : list Recommendation;
  low : list Recommendation
}.

Definition noRecommendations : Recommendations :=
  {| immediate := []; high := []; medium := []; low := [] |}.

(** The table of [getErrorRecommendation] (its own keys).  The lookup
    below is [recommendations[pattern.type] || default] for an error type
    that does not name a member of [Object.prototype]. *)
Definition errorRecommendationTable : list (string * string) :=
  [ ("database", "Implement connection pooling and retry mechanisms");
    ("timeout", "Review and adjust timeout settings, implement circuit breakers");
    ("validation", "Enhance input validation and sanitization");
    ("authentication", "Review and strengthen authentication mechanisms");
    ("rate_limit", "Adjust rate limiting thresholds and implement caching") ].

Fixpoint tableGet (t : list (string * string)) (k : string) : option string :=
  match t with
  | [] => None
  | (k', v) :: r => if String.eqb k' k then Some v else tableGet r k
  end.

Definition getErrorRecommendation (pattern : ErrorPattern) : string :=
  match tableGet errorRecommendationTable (type pattern) with
  | Some v => v
  | None => "Investigate and implement appropriate error handling"
  end.

(** The callback of [errorPatterns.forEach] in
    [generateErrorRecommendations]. *)
Definition recommendError (recommendations : Recommendations)
    (pattern : ErrorPattern) : Recommendations :=
  if Rleb 0.8 (priority pattern) then
    {| immediate := immediate recommendations ++
         [{| r_type := "error";
             issue := "Frequent error: " ++ type pattern;
             recommendation := getErrorRecommendation pattern;
             r_priority := "immediate";
             r_metrics := Some {| m_frequency := frequency pattern;
                                  m_occurrences := p_count pattern |} |}];
       high := high recommendations;
       medium := medium recommendations;
       low := low recommendations |}
  else if Rleb 0.6 (priority pattern) then
    {| immediate := immediate recommendations;
       high := high recommendations ++
         [{| r_type := "error";
             issue := "Recurring error: " ++ type pattern;
             recommendation := getErrorRecommendation pattern;
             r_priority := "high";
             r_metrics := None |}];
       medium := medium recommendations;
       low := low recommendations |}
  else recommendations.

(** [errorPatterns.forEach(...)] over any array of patterns. *)
Definition recommendErrors (errorPatterns : list ErrorPattern)
    (recommendations : Recommendations) : Recommendations :=
  fold_left recommendError errorPatterns recommendations.

(** [generateErrorRecommendations(recommendations)]. *)
Definition generateErrorRecommendations (now : Z)
    (errors : list (string * ErrorData)) (nErrors : nat)
    (recommendations : Recommendations) : Recommendations :=
  recommendErrors (analyzeErrorPatterns now errors nErrors) recommendations.

(** *** Exceptions *)

(** What the code of the class throws: the [TypeError] of a call to a
    method that is not defined, and [AppError] with its four fields (the
    stack trace apart). *)
Inductive JsError :=
| TypeError (message : string)
| AppError (statusCode : nat) (message : string) (errorType : string)
    (isOperational : bool).

(** A computation returns or throws. *)
Inductive Result (A : Type) :=
| Ok (a : A)
| Throw (e : JsError).

Arguments Ok {A} a.
Arguments Throw {A} e.

(** Sequencing: what follows a statement that throws is not run. *)
Definition bind {A B : Type} (r : Result A) (k : A -> Result B) : Result B :=
  match r with
  | Ok a => k a
  | Throw e => Throw e
  end.

(** [this.m(...)] for a method [m] the class does not define. *)
Definition callUndefined {A : Type} (callee : string) : Result A :=
  Throw (TypeError (callee ++ " is not a function")).

(** [arr.map(f)] for a callback that may throw. *)
Fixpoint mapM {A B : Type} (f : A -> Result B) (l : list A) : Result (list B) :=
  match l with
  | [] => Ok []
  | x :: r =>
      bind (f x) (fun y => bind (mapM f r) (fun ys => Ok (y :: ys)))
  end.

(** [try { body } catch (error) { throw new AppError(500, message) }]:
    the constructor's defaults fill the other two fields. *)
Definition rethrowAsAppError {A : Type} (message : string) (body : Result A)
    : Result A :=
  match body with
  | Ok a => Ok a
  | Throw _ => Throw (AppError 500 message "operational" true)
  end.

(** *** The report of [analyzeAllFeedback] *)

Record ErrorRecord := { e_severity : option string }.
Record UserFeedback := { f_timestamp : Z }.
Record Perf := { perf_method : string; perf_path : string; perf_duration : float }.

(** A value of the local map [slowEndpoints]. *)
Record SlowData := { s_count : nat; totalDuration : float; maxDuration : float }.

Record PerformancePattern := {
  endpoint : string;
  averageDuration : float;
  pp_maxDuration : float;
  occurrences : nat;
  pp_priority : R
}.

Record TopIssue := { error : string; ti_count : nat; ti_lastOccurrence : Z }.

(** [slowEndpoints.has / set / get] followed by the update of the entry. *)
Fixpoint recordSlow (m : list (string * SlowData)) (key : string) (d : float)
    : list (string * SlowData) :=
  let upd data :=
    {| s_count := s_count data + 1;
       totalDuration := (totalDuration data + d)%float;
       maxDuration := JsNumber.Math_max (maxDuration data) d |} in
  match m with
  | [] => [(key, upd {| s_count := 0; totalDuration := 0%float;
                        maxDuration := 0%float |})]
  | (k, data) :: r =>
      if String.eqb k key then (k, upd data) :: r
      else (k, data) :: recordSlow r key d
  end.

Definition visitPerf (m : list (string * SlowData)) (perf : Perf)
    : list (string * SlowData) :=
  if PrimFloat.ltb performanceThreshold (perf_duration perf) then
    recordSlow m (perf_method perf ++ " " ++ perf_path perf) (perf_duration perf)
  else m.

(** The map [slowEndpoints] once [performance.forEach] is over. *)
Definition slowEndpoints (performance : list Perf) : list (string * SlowData) :=
  fold_left visitPerf performance [].

Section Report.

(** [Value] stands for what the undefined methods would return, [Extra]
    for the part of the analyzer that the code under [src/] never reads
    ([feedbackData.suggestions] and the maps [slowRequests],
    [userComplaints] and [featureRequests] of [patterns]). *)
Variables Value Extra : Type.

(** [this]: the fields of [feedbackData] and [patterns]. *)
Record State := {
  errors : list ErrorRecord;
  userFeedback : list UserFeedback;
  performance : list Perf;
  patternErrors : list (string * ErrorData);
  extra : Extra
}.

Record RecentTrends := {
  dailyFeedbackCount : nat;
  sentimentTrend : Value;
  topComplaints : Value;
  emergingIssues : Value
}.

Record Summary := {
  totalFeedback : nat;
  totalErrors : nat;
  performanceIssues : nat;
  criticalIssues : nat;
  topIssues : list TopIssue;
  recentTrends : RecentTrends
}.

Record PatternsReport := {
  errorPatterns : list ErrorPattern;
  performancePatterns : list PerformancePattern;
  userComplaintPatterns : Value;
  featureRequestPatterns : Value
}.

Record Metrics := {
  errorRate : Value;
  averageResponseTime : Value;
  userSatisfaction : Value;
  criticalIssueRate : Value
}.

Record Report := {
  timestamp : Z;       (* the instant [toISOString] prints *)
  summary : Summary;
  patterns : PatternsReport;
  recommendations : Recommendations;
  metrics : Metrics
}.

(** **** The summary, were the three trend methods defined

    The fields of the summary are computed by code of the class; only
    [recentTrends] needs the three undefined trend methods.  To state what
    the fields hold, [generateSummary] and [analyzeRecentTrends] are given
    here with those three methods as parameters. *)

Variables calculateSentimentTrend getTopComplaints identifyEmergingIssues
  : State -> Z -> list UserFeedback -> Value.

Definition analyzeRecentTrends (this : State) (now : Z) : RecentTrends :=
  let dayInMs := (24 * 60 * 60 * 1000)%Z in
  let recentFeedback :=
    filter (fun f => (now - f_timestamp f <? dayInMs)%Z) (userFeedback this) in
  {| dailyFeedbackCount := List.length recentFeedback;
     sentimentTrend := calculateSentimentTrend this now recentFeedback;
     topComplaints := getTopComplaints this now recentFeedback;
     emergingIssues := identifyEmergingIssues this now recentFeedback |}.

Definition generateSummary (this : State) (now : Z) : Summary :=
  {| totalFeedback := List.length (userFeedback this);
     totalErrors := List.length (errors this);
     performanceIssues := List.length (performance this);
     criticalIssues :=
       List.length (filter (fun e => isCritical (e_severity e)) (errors this));
     topIssues :=
       map (fun e => {| error := fst e; ti_count := count (snd e);
                        ti_lastOccurrence := lastOccurrence (snd e) |})
         (JsArray.slice0 5
            (JsArray.sort
               (fun a b => (count (snd b) <=? count (snd a))%nat)
               (patternErrors this)));
     recentTrends := analyzeRecentTrends this now |}.

(** **** The run of the class as it is written

    Every method below is the method of the class with the calls to
    undefined methods raising their [TypeError]. *)

(** [analyzeRecentTrends()]: the object literal is evaluated field by
    field, and its second field calls [calculateSentimentTrend]. *)
Definition runAnalyzeRecentTrends (this : State) (now : Z) : Result RecentTrends :=
  let dayInMs := (24 * 60 * 60 * 1000)%Z in
  let recentFeedback :=
    filter (fun f => (now - f_timestamp f <? dayInMs)%Z) (userFeedback this) in
  bind (callUndefined "this.calculateSentimentTrend") (fun sentimentTrend =>
  bind (callUndefined "this.getTopComplaints") (fun topComplaints =>
  bind (callUndefined "this.identifyEmergingIssues") (fun emergingIssues =>
  Ok {| dailyFeedbackCount := List.length recentFeedback;
        sentimentTrend := sentimentTrend;
        topComplaints := topComplaints;
        emergingIssues := emergingIssues |}))).

(** [generateSummary()]: the counts and the top issues, then
    [summary.recentTrends = this.analyzeRecentTrends()]. *)
Definition runGenerateSummary (this : State) (now : Z) : Result Summary :=
  let criticalIssues :=
    List.length (filter (fun e => isCritical (e_severity e)) (errors this)) in
  let topIssues :=
    map (fun e => {| error := fst e; ti_count := count (snd e);
                     ti_lastOccurrence := lastOccurrence (snd e) |})
      (JsArray.slice0 5
         (JsArray.sort
            (fun a b => (count (snd b) <=? count (snd a))%nat)
            (patternErrors this))) in
  bind (runAnalyzeRecentTrends this now) (fun recentTrends =>
  Ok {| totalFeedback := List.length (userFeedback this);
        totalErrors := List.length (errors this);
        performanceIssues := List.length (performance this);
        criticalIssues := criticalIssues;
        topIssues := topIssues;
        recentTrends := recentTrends |}).

(** [analyzePerformancePatterns()]: the callback of [map] calls
    [calculatePerformancePriority] for each slow endpoint. *)
Definition analyzePerformancePatterns (this : State) (now : Z)
    : Result (list PerformancePattern) :=
  bind (mapM (fun e =>
                let data := snd e in
                bind (callUndefined "this.calculatePerformancePriority")
                  (fun priority =>
                Ok {| endpoint := fst e;
                      averageDuration :=
                        (totalDuration data / JsNumber.of_nat (s_count data))%float;
                      pp_maxDuration := maxDuration data;
                      occurrences := s_count data;
                      pp_priority := priority |}))
          (slowEndpoints (performance this)))
    (fun patterns =>
     Ok (JsArray.sort (fun a b => Rleb (pp_priority b) (pp_priority a)) patterns)).

(** [identifyPatterns()]. *)
Definition identifyPatterns (this : State) (now : Z) : Result PatternsReport :=
  let errorPatterns :=
    analyzeErrorPatterns now (patternErrors this) (List.length (errors this)) in
  bind (analyzePerformancePatterns this now) (fun performancePatterns =>
  bind (callUndefined "this.analyzeUserComplaints") (fun userComplaintPatterns =>
  bind (callUndefined "this.analyzeFeatureRequests") (fun featureRequestPatterns =>
  Ok {| errorPatterns := errorPatterns;
        performancePatterns := performancePatterns;
        userComplaintPatterns := userComplaintPatterns;
        featureRequestPatterns := featureRequestPatterns |}))).

(** [generateRecommendations()]: the three generators after the first are
    not defined; each would update [recommendations] in place. *)
Definition generateRecommendations (this : State) (now : Z)
    : Result Recommendations :=
  let r1 := generateErrorRecommendations now (patternErrors this)
              (List.length (errors this)) noRecommendations in
  bind (callUndefined "this.generatePerformanceRecommendations")
    (fun _ : Recommendations =>
  bind (callUndefined "this.generateUserFeedbackRecommendations")
    (fun _ : Recommendations =>
  bind (callUndefined "this.generateFeatureRequestRecommendations")
    (fun r4 : Recommendations => Ok r4))).

(** [calculateMetrics()]. *)
Definition calculateMetrics (this : State) (now : Z) : Result Metrics :=
  bind (callUndefined "this.calculateErrorRate") (fun errorRate =>
  bind (callUndefined "this.calculateAverageResponseTime") (fun averageResponseTime =>
  bind (callUndefined "this.calculateUserSatisfaction") (fun userSatisfaction =>
  bind (callUndefined "this.calculateCriticalIssueRate") (fun criticalIssueRate =>
  Ok {| errorRate := errorRate;
        averageResponseTime := averageResponseTime;
        userSatisfaction := userSatisfaction;
        criticalIssueRate := criticalIssueRate |})))).

(** [analyzeAllFeedback()], run at the instant [now]: the report is built
    field by field inside [try], and anything thrown is replaced by
    [AppError(500, 'Failed to analyze feedback')].  The method is [async]
    and awaits the [async] methods it calls: a promise rejected with [e]
    is [Throw e], both for what it awaits and for what it returns. *)
Definition analyzeAllFeedback (this : State) (now : Z) : Result Report :=
  rethrowAsAppError "Failed to analyze feedback"
    (let timestamp := now in
     bind (runGenerateSummary this now) (fun summary =>
     bind (identifyPatterns this now) (fun patterns =>
     bind (generateRecommendations this now) (fun recommendations =>
     bind (calculateMetrics this now) (fun metrics =>
     Ok {| timestamp := timestamp;
           summary := summary;
           patterns := patterns;
           recommendations := recommendations;
           metrics := metrics |}))))).

End Report.

End FeedbackAnalyzer.

(* ------------------------------------------------------------------ *)
(** ** The sentiment score as the specification words it *)

Module SentimentSpec.

Import JsNumber SentimentAnalysis.
Local Open Scope float_scope.

(** The weight of a token: the positive table is consulted first. *)
Definition keywordWeight (w : string) : option float :=
  match get POSITIVE_KEYWORDS w with
  | Some v => Some v
  | None => get NEGATIVE_KEYWORDS w
  end.

(** The weights of the tokens that match a table, one per occurrence. *)
Definition matchedWeights (tokens : list string) : list float :=
  flat_map (fun w => match keywordWeight w with Some v => [v] | None => [] end)
    tokens.

(** [totalWeight]: the weights added up from zero, in token order. *)
Definition totalWeight (ws : list float) : float := fold_left PrimFloat.add ws 0.

(** The matched tokens with their weights, one entry per occurrence. *)
Definition recorded (tokens : list string) : list MatchedWord :=
  flat_map (fun w => match keywordWeight w with
                     | Some v => [{| word := w; wscore := v |}]
                     | None => []
                     end) tokens.

Definition matchedCount (text : string) : nat :=
  List.length (matchedWeights (words text)).

Definition specScore (text : string) : float :=
  if (matchedCount text =? 0)%nat then 0
  else toFixed2 (totalWeight (matchedWeights (words text))
                 / of_nat (matchedCount text)).

Definition specConfidence (text : string) : float :=
  if (matchedCount text =? 0)%nat then 0
  else Math_min (of_nat (matchedCount text) / 3) 1.

End SentimentSpec.

(* ------------------------------------------------------------------ *)
(** ** The review of the specification's example *)

Module AspectSpec.

Import AspectAnalysis.
Local Open Scope string_scope.

Definition review : string :=
  "The food was delicious and the service was excellent".

(** [aspects.<name>.score], when the aspect is in the result. *)
Definition aspectScore (a : Analysis) (name : string) : option float :=
  option_map score (lookup (aspects a) name).

End AspectSpec.

(* ------------------------------------------------------------------ *)
(** ** The vocabulary of the statements about the log analyzer *)

Module LogSpec.

Import JsString LogAnalyzer.
Local Open Scope Z_scope.

(** [hay.includes(needle)]: [needle] occurs in [hay], case and all. *)
Fixpoint contains (needle hay : string) : bool :=
  String.prefix needle hay ||
  match hay with
  | EmptyString => false
  | String _ r => contains needle r
  end.

Definition noMatch (msg : string) (cp : Category * Regex) : Prop :=
  test (snd cp) msg = false.

(** [c] is the category of the first pattern of the table, in its order,
    that matches [msg], and [other] when none does. *)
Definition FirstMatch (table : list (Category * Regex)) (msg : string)
    (c : Category) : Prop :=
  (exists pre p post,
      table = pre ++ (c, p) :: post /\ test p msg = true /\
      Forall (noMatch msg) pre)
  \/ (c = other /\ Forall (noMatch msg) table).

(** Five minutes, in milliseconds. *)
Definition gap : Z := 300000.

(** Every two consecutive instants of the cluster differ by at most five
    minutes: the later one is not before the earlier one and at most
    [gap] after it. *)
Fixpoint withinGap (c : list Z) : Prop :=
  match c with
  | a :: (b :: _) as r => 0 <= b - a <= gap /\ withinGap r
  | _ => True
  end.

(** Between every two consecutive clusters, more than five minutes pass
    from the last instant of the earlier to the first of the later. *)
Fixpoint wellSeparated (cs : list (list Z)) : Prop :=
  match cs with
  | c1 :: (c2 :: _) as r => last c1 0 + gap < hd 0 c2 /\ wellSeparated r
  | _ => True
  end.

(** The invariant of the clustering loop; [rest] is what remains of the
    sorted error times. *)
Record Inv (st : ClusterState) (rest : list Z) : Prop := {
  inv_size : Forall (fun c => (2 <= List.length c)%nat) (fst st);
  inv_gaps : Forall withinGap (fst st);
  inv_separated : wellSeparated (fst st);
  inv_current : withinGap (snd st);
  inv_started : snd st = [] -> fst st = [];
  inv_after : fst st <> [] ->
              forall y, In y (snd st) -> last (last (fst st) []) 0 + gap < y;
  inv_ahead : forall y x, In y (snd st) -> In x rest -> y <= x;
  inv_sorted : StronglySorted Z.le rest
}.

(** The pattern the table gives a category (none for [other]). *)
Definition patternOf (c : Category) : Regex :=
  match find (fun cp => match fst cp, c with
                        | timeout, timeout | memory, memory
                        | database, database | api, api
                        | security, security => true
                        | _, _ => false
                        end) errorPatterns with
  | Some cp => snd cp
  | None => []
  end.

(** An error entry about a refused connection that matches neither of
    the two patterns tried before the database pattern. *)
Definition refusedOnly (e : LogEntry) : Prop :=
  level e = "error"%string /\
  contains "connection refused" (message e) = true /\
  test (patternOf timeout) (message e) = false /\
  test (patternOf memory) (message e) = false.

Definition mkError (msg : string) (t : Z) : LogEntry :=
  {| level := "error"; message := msg; path := None; timestamp := Some t;
     duration := None; type := None; query := None;
     memoryHeapUsed := None; cpuUsage := None |}.

(** Six instants half a minute apart: a span of two and a half minutes. *)
Definition sixInstants : list Z := [0; 30000; 60000; 90000; 120000; 150000].

Definition refusedEntries : list LogEntry :=
  map (mkError "connection refused") sixInstants.

Definition refusedTimedOutEntries : list LogEntry :=
  map (mkError "connection refused: upstream timed out") sixInstants.

End LogSpec.

(* ------------------------------------------------------------------ *)
(** ** Sample data for the statements about the feedback analyzer *)

Module FeedbackSpec.

Import FeedbackAnalyzer.
Local Open Scope string_scope.

(** An error seen five times, marked critical, whose last occurrence lies
    one day after the instant [0]. *)
Definition futureError : ErrorData :=
  {| count := 5; lastOccurrence := 86400000;
     endpoints := []; severity := Some "critical" |}.

(** An error seen seven times, last at the instant [0]. *)
Definition pastError : ErrorData :=
  {| count := 7; lastOccurrence := 0; endpoints := []; severity := None |}.

(** A pattern whose priority is one half. *)
Definition minorPattern : ErrorPattern :=
  {| type := "validation"; p_count := 1; frequency := None;
     p_lastOccurrence := 0; affectedEndpoints := []; priority := 0.5 |}.

(** The analyzer as its constructor leaves it: [feedbackData] holds empty
    arrays and [patterns] empty maps. *)
Definition freshState : State unit :=
  {| errors := []; userFeedback := []; performance := [];
     patternErrors := []; extra := tt |}.

End FeedbackSpec.

(* ------------------------------------------------------------------ *)
(** ** Further vocabulary: counters, totals and character predicates *)

Module MoreSpec.

Import JsString LogAnalyzer.

(** Every character of the string satisfies [p]. *)
Fixpoint forallChars (p : ascii -> bool) (s : string) : bool :=
  match s with
  | EmptyString => true
  | String c r => p c && forallChars p r
  end.

(** A character of the ASCII range. *)
Definition isAscii (c : ascii) : bool := (code c <? 128)%nat.

(** A lower-case word character: [[a-z0-9_]]. *)
Definition isLowerWordChar (c : ascii) : bool :=
  isWordChar c && negb (isUpper c).

(** [m.get(k) || 0] on a counter. *)
Fixpoint counterGet (m : Counter) (k : string) : nat :=
  match m with
  | [] => 0
  | (k', n) :: r => if String.eqb k' k then n else counterGet r k
  end.

(** The sum of the six error counters. *)
Definition sumCounts (e : ErrorCounts) : nat :=
  n_timeout e + n_memory e + n_database e + n_api e + n_security e + n_other e.

Definition isError (e : LogEntry) : bool := String.eqb (level e) "error".

(** The entry has the (non-empty) path [p]. *)
Definition hasPath (p : string) (e : LogEntry) : bool :=
  match truthyStr (path e) with
  | Some q => String.eqb q p
  | None => false
  end.

(** The key under which an error entry is counted in [commonErrors]. *)
Definition errorKey (e : LogEntry) : string :=
  (match truthyStr (path e) with Some p => p | None => "unknown" end
   ++ ": " ++ message e)%string.

(** Every sample on the four performance lists exceeds the threshold of
    its list. *)
Definition overThresholds (p : Performance) : Prop :=
  Forall (fun r => PrimFloat.ltb (t_request performanceThresholds) (sr_duration r) = true)
    (slowRequests p) /\
  Forall (fun q => PrimFloat.ltb (t_query performanceThresholds) (sq_duration q) = true)
    (slowQueries p) /\
  Forall (fun h => PrimFloat.ltb (t_memory performanceThresholds * 1024 * 1024)%float
                     (hm_used h) = true)
    (highMemory p) /\
  Forall (fun c => PrimFloat.ltb (t_cpu performanceThresholds) (hc_usage c) = true)
    (highCpu p).

(** The five recommendations, in the order they are pushed. *)
Definition allRecommendations : list Recommendation :=
  [ databaseRecommendation; performanceRecommendation; memoryRecommendation;
    apiRecommendation; securityRecommendation ].

End MoreSpec.

(* ------------------------------------------------------------------ *)
(** ** The invariant of the aspect containers *)

Module AspectInvariant.

Import AspectAnalysis.

(** What every container of [aspectResults] satisfies throughout the
    loops: one mention per sentence, and keywords as soon as there is a
    sentence, all of them keywords of the aspect. *)
Definition containerOk (e : string * AspectData) : Prop :=
  mentionCount (snd e) = List.length (sentences (snd e)) /\
  (sentences (snd e) <> [] -> matchedKeywords (snd e) <> []) /\
  forall kws, lookup ASPECT_KEYWORDS (fst e) = Some kws ->
              Forall (fun k => In k kws) (matchedKeywords (snd e)).

End AspectInvariant.

(* ------------------------------------------------------------------ *)
(** ** Further vocabulary for the feedback analyzer *)

Module FeedbackMore.

Import FeedbackAnalyzer.
Local Open Scope Z_scope.

(** The error type has reached the frequency threshold. *)
Definition isFrequent (e : string * ErrorData) : bool :=
  (errorFrequency <=? count (snd e))%nat.

(** The pattern reported for an entry of [patterns.errors]. *)
Definition patternOfEntry (now : Z) (nErrors : nat) (e : string * ErrorData)
    : ErrorPattern :=
  {| type := fst e;
     p_count := count (snd e);
     frequency :=
       if (nErrors =? 0)%nat then None
       else Some (INR (count (snd e)) / INR nErrors)%R;
     p_lastOccurrence := lastOccurrence (snd e);
     affectedEndpoints := endpoints (snd e);
     priority := calculatePriority now (snd e) |}.

(** The request took longer than the performance threshold. *)
Definition isSlow (perf : Perf) : bool :=
  PrimFloat.ltb performanceThreshold (perf_duration perf).

(** The key of a request in the map [slowEndpoints]. *)
Definition endpointKey (perf : Perf) : string :=
  (perf_method perf ++ " " ++ perf_path perf)%string.

(** The number of requests the map [slowEndpoints] stands for. *)
Definition slowTotal (m : list (string * SlowData)) : nat :=
  list_sum (map (fun e => s_count (snd e)) m).

(** What every entry of the map [slowEndpoints] satisfies, [seen] being
    the requests visited so far: it stands for at least one request, its
    maximum is above the threshold, and its key is that of a slow request
    among those visited. *)
Definition slowOk (seen : list Perf) (e : string * SlowData) : Prop :=
  (1 <= s_count (snd e))%nat /\
  PrimFloat.ltb performanceThreshold (maxDuration (snd e)) = true /\
  exists perf, In perf seen /\ isSlow perf = true /\ fst e = endpointKey perf.

(** An error type seen six times, not critical, last seen one hour before
    the instant [3600000]. *)
Definition staleError : ErrorData :=
  {| count := 6; lastOccurrence := 0; endpoints := []; severity := None |}.

End FeedbackMore.

(* ================================================================== *)
(** * Properties *)

(* ------------------------------------------------------------------ *)
(** ** Sentiment scoring *)

Section SentimentProofs.

Import JsNumber SentimentAnalysis SentimentSpec.

Lemma recorded_weights tokens :
  map wscore (recorded tokens) = matchedWeights tokens.
Proof.
  unfold recorded, matchedWeights.
  induction tokens as [|w ws IH]; cbn [flat_map map]; [reflexivity|].
  rewrite map_app, IH.
  destruct (keywordWeight w); reflexivity.
Qed.

Lemma step_keywordWeight acc w :
  step acc w =
  match keywordWeight w with
  | Some v => (PrimFloat.add (fst acc) v,
               snd acc ++ [{| word := w; wscore := v |}])
  | None => acc
  end.
Proof.
  destruct acc as [t m]; unfold step, keywordWeight; cbn [fst snd].
  destruct (get POSITIVE_KEYWORDS w); [reflexivity|].
  destruct (get NEGATIVE_KEYWORDS w); reflexivity.
Qed.

(** The loop adds the matched weights to the running total, in token
    order, and records one entry per matched token. *)
Lemma loop_invariant tokens : forall t m,
  fold_left step tokens (t, m) =
  (fold_left PrimFloat.add (matchedWeights tokens) t, m ++ recorded tokens).
Proof.
  unfold recorded, matchedWeights.
  induction tokens as [|w ws IH]; intros t m; cbn [fold_left flat_map].
  - now rewrite app_nil_r.
  - rewrite step_keywordWeight; cbn [fst snd].
    destruct (keywordWeight w) as [v|]; cbn [app fold_left].
    + rewrite IH, <- app_assoc. reflexivity.
    + apply IH.
Qed.

Lemma analyzeSentiment_unfold text :
  analyzeSentiment text =
  let ws := matchedWeights (words text) in
  let len := List.length ws in
  {| score := toFixed2 (if (0 <? len)%nat
                        then PrimFloat.div (totalWeight ws) (of_nat (Nat.max len 1))
                        else 0%float);
     matchedWords := recorded (words text);
     confidence := Math_min (PrimFloat.div (of_nat len) 3) 1 |}.
Proof.
  unfold analyzeSentiment.
  rewrite loop_invariant; cbn [app]; cbv zeta.
  rewrite <- recorded_weights, length_map.
  reflexivity.
Qed.

Lemma toFixed2_zero : toFixed2 0 = 0%float.
Proof. reflexivity. Qed.

Lemma confidence_zero : Math_min (PrimFloat.div (of_nat 0) 3) 1 = 0%float.
Proof. reflexivity. Qed.

(** C2.  For every text, the scorer returns score 0 and confidence 0 when
    no token matches the keyword tables; otherwise the score is the sum
    of the matched weights divided by the number of matched tokens
    (repeats counted one by one), rounded to two decimals, and the
    confidence is [min(matchedCount / 3, 1)]. *)
Theorem C2_analyzeSentiment_score_confidence (text : string) :
  score (analyzeSentiment text) = specScore text /\
  confidence (analyzeSentiment text) = specConfidence text /\
  map wscore (matchedWords (analyzeSentiment text)) = matchedWeights (words text).
Proof.
  rewrite analyzeSentiment_unfold; cbv zeta; cbn [score confidence matchedWords].
  unfold specScore, specConfidence, matchedCount.
  destruct (List.length (matchedWeights (words text))) as [|n] eqn:Hlen.
  - cbn [Nat.ltb Nat.leb Nat.eqb].
    rewrite toFixed2_zero, confidence_zero.
    repeat split. apply recorded_weights.
  - replace (Nat.max (S n) 1) with (S n) by lia.
    cbn [Nat.ltb Nat.leb Nat.eqb].
    repeat split. apply recorded_weights.
Qed.

End SentimentProofs.

(* ------------------------------------------------------------------ *)
(** ** Aspect classification *)

Section AspectProofs.

Import AspectAnalysis AspectSpec.
Local Open Scope string_scope.

(** C3, as the code runs it.  The review is one sentence; it mentions
    both aspects, so both are scored on the whole sentence, whose matched
    keywords are "delicious" (0.8) and "excellent" (1.0): food 0.90,
    service 0.90, overall 0.90. *)
Theorem C3_aspect_scores_of_review :
  aspectScore (analyzeAspects review) "food" = Some 0.9%float /\
  aspectScore (analyzeAspects review) "service" = Some 0.9%float /\
  option_map overallScore (summary (analyzeAspects review)) = Some 0.9%float.
Proof. vm_compute. repeat split. Qed.

(** C3 as stated fails: the food score is not 0.80 (and the service
    score is not 1.00). *)
Lemma C3_counterexample :
  ~ (aspectScore (analyzeAspects review) "food" = Some 0.8%float /\
     aspectScore (analyzeAspects review) "service" = Some 1%float /\
     option_map overallScore (summary (analyzeAspects review)) = Some 0.9%float).
Proof.
  intros [H _].
  apply (f_equal (fun o => match o with
                           | Some z => PrimFloat.eqb z 0.9
                           | None => false
                           end)) in H.
  vm_compute in H. discriminate.
Qed.

End AspectProofs.

(* ------------------------------------------------------------------ *)
(** ** Log analysis: classification *)

Section ClassificationProofs.

Import JsString LogAnalyzer LogSpec.
Local Open Scope string_scope.

Lemma classifyWith_first_match table msg :
  FirstMatch table msg (classifyWith table msg).
Proof.
  induction table as [|[c p] r IH]; cbn [classifyWith].
  - right. split; [reflexivity | constructor].
  - destruct (test p msg) eqn:E.
    + left. exists [], p, r.
      split; [reflexivity | split; [assumption | constructor]].
    + destruct IH as [(pre & q & post & Hr & Hq & Hpre) | [Hc Hall]].
      * left. exists ((c, p) :: pre), q, post.
        split; [cbn [app]; f_equal; exact Hr | split; [assumption |]].
        constructor; [exact E | assumption].
      * right. split; [assumption | constructor; [exact E | assumption]].
Qed.

(** The first match is unique: it is the category the loop returns. *)
Lemma first_match_unique table msg c :
  FirstMatch table msg c -> c = classifyWith table msg.
Proof.
  induction table as [|[c0 p0] r IH]; cbn [classifyWith].
  - intros [(pre & q & post & Hr & _) | [Hc _]]; [|assumption].
    destruct pre; discriminate.
  - intros [(pre & q & post & Hr & Hq & Hpre) | [Hc Hall]].
    + destruct pre as [|x pre].
      * injection Hr as -> -> ->. now rewrite Hq.
      * injection Hr as <- ->. inversion Hpre as [|? ? Hx Hpre']; subst.
        unfold noMatch in Hx; cbn [snd] in Hx. rewrite Hx.
        apply IH. left. now exists pre, q, post.
    + inversion Hall as [|? ? Hx Hall']; subst.
      unfold noMatch in Hx; cbn [snd] in Hx. rewrite Hx.
      apply IH. right. now split.
Qed.

Lemma errors_analyzeLogEntry entry results :
  errors (analyzeLogEntry entry results) = errors (trackError entry results).
Proof. reflexivity. Qed.

(** C4.  For an entry of level "error", the counter that goes up is the
    one of the first category, in the order timeout, memory, database,
    api, security, whose pattern matches the message, and the one of
    "other" when no pattern matches. *)
Theorem C4_error_category_first_match (entry : LogEntry) (results : Results) :
  level entry = "error" ->
  map fst errorPatterns = [timeout; memory; database; api; security] /\
  FirstMatch errorPatterns (message entry) (classify (message entry)) /\
  (forall c, FirstMatch errorPatterns (message entry) c ->
             c = classify (message entry)) /\
  errors (analyzeLogEntry entry results)
  = bump (classify (message entry)) (errors results).
Proof.
  intros Hlevel. split; [reflexivity|].
  split; [apply classifyWith_first_match|].
  split; [intros c; apply first_match_unique|].
  rewrite errors_analyzeLogEntry. unfold trackError.
  rewrite Hlevel. reflexivity.
Qed.

(** The theorem at work on an entry whose message only the api pattern
    matches. *)
Lemma C4_witness :
  errors (analyzeLogEntry (mkError "HTTP 503: Rate limit hit" 0) initialResults)
  = bump api (errors initialResults).
Proof.
  apply (C4_error_category_first_match
           (mkError "HTTP 503: Rate limit hit" 0) initialResults).
  reflexivity.
Defined.

End ClassificationProofs.

(* ------------------------------------------------------------------ *)
(** ** Log analysis: refused connections *)

Section RefusedConnectionProofs.

Import JsString LogAnalyzer LogSpec.
Local Open Scope string_scope.

Lemma matchAtom_refl c : matchAtom (Lit c) c = true.
Proof. cbn [matchAtom]. apply Ascii.eqb_refl. Qed.

Lemma prefix_matchHere needle : forall s,
  String.prefix needle s = true -> matchHere (lit needle) s = true.
Proof.
  induction needle as [|a needle IH]; intros s H; [reflexivity|].
  destruct s as [|b s]; [discriminate|].
  cbn [String.prefix] in H.
  destruct (Ascii.ascii_dec a b) as [->|]; [|discriminate].
  change (lit (String b needle)) with (Lit b :: lit needle).
  cbn [matchHere]. rewrite matchAtom_refl. apply IH, H.
Qed.

Lemma contains_matchAnywhere needle : forall s,
  contains needle s = true -> matchAnywhere (lit needle) s = true.
Proof.
  induction s as [|b s IH]; cbn [contains matchAnywhere]; intros H.
  - rewrite orb_false_r in H. now rewrite (prefix_matchHere _ _ H).
  - apply orb_true_iff in H. apply orb_true_iff.
    destruct H as [H|H]; [left; apply prefix_matchHere, H | right; apply IH, H].
Qed.

(** A message that contains "connection refused" matches the database
    pattern. *)
Lemma refused_matches_database msg :
  contains "connection refused" msg = true ->
  test (patternOf database) msg = true.
Proof.
  intros H.
  change (patternOf database)
    with [lit "database error"; lit "connection refused"; lit "deadlock"].
  unfold test. cbn [existsb].
  rewrite (contains_matchAnywhere _ _ H).
  now rewrite orb_true_r.
Qed.

Lemma refusedOnly_classify e : refusedOnly e -> classify (message e) = database.
Proof.
  intros (_ & Hc & Ht & Hm).
  apply refused_matches_database in Hc.
  unfold classify.
  change errorPatterns with
    ((timeout, patternOf timeout) :: (memory, patternOf memory)
     :: (database, patternOf database) :: skipn 3 errorPatterns).
  cbn [classifyWith]. now rewrite Ht, Hm, Hc.
Qed.

Lemma errors_analyzeAll entries : forall r,
  Forall refusedOnly entries ->
  errors (analyzeAll entries r)
  = Nat.iter (List.length entries) (bump database) (errors r).
Proof.
  unfold analyzeAll.
  induction entries as [|e es IH]; intros r H; [reflexivity|].
  inversion H as [|? ? He Hes]; subst.
  cbn [fold_left List.length]. rewrite IH by assumption.
  rewrite errors_analyzeLogEntry. unfold trackError.
  destruct He as (Hl & He). rewrite Hl. cbn [String.eqb Ascii.eqb Bool.eqb].
  cbn [errors].
  rewrite (refusedOnly_classify e) by (split; assumption).
  now rewrite Nat.iter_succ_r.
Qed.

Lemma In_pushIf x b r l : In x l -> In x (pushIf b r l).
Proof.
  unfold pushIf. destruct b; [|trivial].
  intros H. apply in_or_app. now left.
Qed.

Lemma database_recommended results :
  (0 < n_database (errors results))%nat ->
  In databaseRecommendation (generateRecommendations results).
Proof.
  intros H. unfold generateRecommendations. cbv zeta.
  do 4 apply In_pushIf.
  apply Nat.ltb_lt in H. rewrite H. now left.
Qed.

(** C1, as far as the design goes.  Six error entries whose messages
    contain "connection refused", and match neither the timeout nor the
    memory pattern, are all classified database: the database counter is
    six, every other counter is zero, and the database recommendation is
    among the recommendations. *)
Theorem C1_refused_connections_are_database (entries : list LogEntry) :
  List.length entries = 6%nat ->
  Forall refusedOnly entries ->
  Forall (fun e => classify (message e) = database) entries /\
  errors (details (analyzeEntries entries))
  = {| n_timeout := 0; n_memory := 0; n_database := 6;
       n_api := 0; n_security := 0; n_other := 0 |} /\
  In databaseRecommendation (recommendations (analyzeEntries entries)).
Proof.
  intros Hlen Hall.
  assert (He : errors (analyzePatterns (analyzeAll entries initialResults))
               = {| n_timeout := 0; n_memory := 0; n_database := 6;
                    n_api := 0; n_security := 0; n_other := 0 |}).
  { cbn [analyzePatterns errors].
    rewrite errors_analyzeAll, Hlen by assumption. reflexivity. }
  split; [|split].
  - eapply Forall_impl; [|exact Hall]. apply refusedOnly_classify.
  - exact He.
  - change (recommendations (analyzeEntries entries))
      with (generateRecommendations
              (analyzePatterns (analyzeAll entries initialResults))).
    apply database_recommended.
    rewrite He. cbn [n_database]. lia.
Qed.

Lemma refusedEntries_refusedOnly : Forall refusedOnly refusedEntries.
Proof.
  unfold refusedEntries, sixInstants. cbn [map].
  repeat (apply Forall_cons; [unfold refusedOnly; vm_compute; tauto|]).
  apply Forall_nil.
Qed.

(** The theorem at work on the six refused connections. *)
Lemma C1_witness :
  Forall (fun e => classify (message e) = database) refusedEntries /\
  errors (details (analyzeEntries refusedEntries))
  = {| n_timeout := 0; n_memory := 0; n_database := 6;
       n_api := 0; n_security := 0; n_other := 0 |} /\
  In databaseRecommendation (recommendations (analyzeEntries refusedEntries)).
Proof.
  exact (C1_refused_connections_are_database refusedEntries
           eq_refl refusedEntries_refusedOnly).
Defined.

(** C1 as stated fails on messages that the timeout pattern matches
    first: none of the six entries is classified database and no database
    recommendation is made. *)
Lemma C1_counterexample :
  Forall (fun e => level e = "error" /\
                   contains "connection refused" (message e) = true)
    refusedTimedOutEntries /\
  ~ (n_database (errors (details (analyzeEntries refusedTimedOutEntries))) = 6%nat /\
     errorClusters (patterns (details (analyzeEntries refusedTimedOutEntries)))
     = [sixInstants] /\
     In databaseRecommendation (recommendations (analyzeEntries refusedTimedOutEntries))).
Proof.
  split.
  - unfold refusedTimedOutEntries, sixInstants. cbn [map].
    repeat (apply Forall_cons; [vm_compute; tauto|]).
    apply Forall_nil.
  - intros [H _]. vm_compute in H. discriminate.
Qed.

End RefusedConnectionProofs.

(* ------------------------------------------------------------------ *)
(** ** Log analysis: error clusters *)

Section ClusterProofs.

Import LogAnalyzer LogSpec.
Local Open Scope Z_scope.

(** *** The sort puts the error times in ascending order *)

Lemma insert_In (x y : Z) l :
  In y (JsArray.insert Z.leb x l) <-> y = x \/ In y l.
Proof.
  induction l as [|z l IH]; cbn [JsArray.insert].
  - cbn [In]. intuition.
  - destruct (x <=? z); cbn [In]; [intuition|].
    rewrite IH. intuition.
Qed.

Lemma insert_sorted (x : Z) l :
  StronglySorted Z.le l -> StronglySorted Z.le (JsArray.insert Z.leb x l).
Proof.
  induction 1 as [|z l Hs IH Hz]; cbn [JsArray.insert].
  - repeat constructor.
  - destruct (x <=? z) eqn:E.
    + apply Z.leb_le in E. constructor; [constructor; assumption|].
      constructor; [assumption|].
      eapply Forall_impl; [|exact Hz]. intros; lia.
    + apply Z.leb_gt in E. constructor; [assumption|].
      apply Forall_forall. intros y Hy. apply insert_In in Hy.
      destruct Hy as [->|Hy]; [lia|].
      rewrite Forall_forall in Hz. now apply Hz.
Qed.

Lemma sortTimes_sorted l : StronglySorted Z.le (sortTimes l).
Proof.
  unfold sortTimes, JsArray.sort.
  induction l as [|x l IH]; cbn [fold_right]; [constructor|].
  now apply insert_sorted.
Qed.

Lemma sortTimes_In l y : In y (sortTimes l) <-> In y l.
Proof.
  unfold sortTimes, JsArray.sort.
  induction l as [|x l IH]; cbn [fold_right]; [reflexivity|].
  rewrite insert_In, IH. cbn [In]. intuition.
Qed.

(** *** Clusters that grow at the end *)

Lemma withinGap_snoc c x :
  withinGap (c ++ [x]) <-> withinGap c /\ (c = [] \/ 0 <= x - last c 0 <= gap).
Proof.
  induction c as [|a c IH]; [cbn; intuition|].
  destruct c as [|b c].
  - cbn. intuition; discriminate.
  - change (withinGap ((a :: b :: c) ++ [x]))
      with (0 <= b - a <= gap /\ withinGap ((b :: c) ++ [x])).
    change (withinGap (a :: b :: c)) with (0 <= b - a <= gap /\ withinGap (b :: c)).
    change (last (a :: b :: c) 0) with (last (b :: c) 0).
    rewrite IH. intuition; discriminate.
Qed.

Lemma hd_snoc (c : list Z) x : c <> [] -> hd 0 (c ++ [x]) = hd 0 c.
Proof. destruct c; [contradiction | reflexivity]. Qed.

Lemma wellSeparated_snoc cs c :
  wellSeparated (cs ++ [c]) <->
  wellSeparated cs /\ (cs = [] \/ last (last cs []) 0 + gap < hd 0 c).
Proof.
  induction cs as [|c1 cs IH]; [cbn; intuition|].
  destruct cs as [|c2 cs].
  - cbn. intuition; discriminate.
  - change (wellSeparated ((c1 :: c2 :: cs) ++ [c]))
      with (last c1 0 + gap < hd 0 c2 /\ wellSeparated ((c2 :: cs) ++ [c])).
    change (wellSeparated (c1 :: c2 :: cs))
      with (last c1 0 + gap < hd 0 c2 /\ wellSeparated (c2 :: cs)).
    change (last (c1 :: c2 :: cs) []) with (last (c2 :: cs) []).
    rewrite IH. intuition; discriminate.
Qed.

Lemma last_In (c : list Z) d : c <> [] -> In (last c d) c.
Proof.
  induction c as [|a c IH]; [contradiction|]. intros _.
  destruct c as [|b c]; [now left|].
  right. apply IH. discriminate.
Qed.

Lemma hd_In (c : list Z) d : c <> [] -> In (hd d c) c.
Proof. destruct c; [contradiction | now left]. Qed.

(** *** The invariant of the clustering loop *)

Lemma Inv_initial l : StronglySorted Z.le l -> Inv ([], []) l.
Proof.
  intros H. constructor; cbn [fst snd]; try constructor; try easy.
Qed.

Lemma Inv_step clusters current x rest :
  Inv (clusters, current) (x :: rest) ->
  Inv (clusterStep (clusters, current) x) rest.
Proof.
  intros [Hsize Hgaps Hsep Hcur Hstart Hafter Hahead Hsorted].
  cbn [fst snd] in *.
  inversion Hsorted as [|? ? Hrest Hx]; subst.
  rewrite Forall_forall in Hx.
  assert (Hle : forall y, In y current -> y <= x)
    by (intros y Hy; apply Hahead; [assumption | now left]).
  unfold clusterStep.
  destruct current as [|a current].
  - (* the first error time *)
    cbn [List.length Nat.eqb app].
    constructor; cbn [fst snd].
    + assumption.
    + assumption.
    + assumption.
    + exact I.
    + discriminate.
    + intros Hne. now rewrite Hstart in Hne.
    + intros y z [<-|[]] Hz. now apply Hx.
    + assumption.
  - set (cur := a :: current) in *.
    assert (Hne : cur <> []) by discriminate.
    change (List.length cur =? 0)%nat with false. cbv iota.
    destruct (x - last cur 0 <=? 300000) eqn:E.
    + (* the cluster grows *)
      apply Z.leb_le in E.
      constructor; cbn [fst snd].
      * assumption.
      * assumption.
      * assumption.
      * apply withinGap_snoc. split; [assumption | right].
        pose proof (Hle _ (last_In cur 0 Hne)). unfold gap. lia.
      * intros H. now destruct (app_cons_not_nil cur [] x).
      * intros Hc y Hy. apply in_app_or in Hy.
        destruct Hy as [Hy|[<-|[]]]; [now apply Hafter|].
        specialize (Hafter Hc a (or_introl eq_refl)).
        specialize (Hle a (or_introl eq_refl)). lia.
      * intros y z Hy Hz. apply in_app_or in Hy.
        destruct Hy as [Hy|[<-|[]]]; [|now apply Hx].
        apply Hahead; [assumption | now right].
      * assumption.
    + (* the cluster ends *)
      apply Z.leb_gt in E.
      destruct (1 <? List.length cur)%nat eqn:L.
      * apply Nat.ltb_lt in L.
        constructor; cbn [fst snd].
        -- apply Forall_app. split; [assumption|].
           constructor; [lia | constructor].
        -- apply Forall_app. split; [assumption|].
           constructor; [assumption | constructor].
        -- apply wellSeparated_snoc. split; [assumption|].
           destruct clusters as [|c0 cs]; [now left | right].
           apply Hafter; [discriminate | now apply hd_In].
        -- exact I.
        -- discriminate.
        -- intros _ y [<-|[]]. rewrite last_last.
           unfold gap in *. lia.
        -- intros y z [<-|[]] Hz. now apply Hx.
        -- assumption.
      * constructor; cbn [fst snd].
        -- assumption.
        -- assumption.
        -- assumption.
        -- exact I.
        -- discriminate.
        -- intros Hc y [<-|[]].
           specialize (Hafter Hc a (or_introl eq_refl)).
           specialize (Hle a (or_introl eq_refl)). lia.
        -- intros y z [<-|[]] Hz. now apply Hx.
        -- assumption.
Qed.

Lemma Inv_loop rest : forall st,
  Inv st rest -> Inv (fold_left clusterStep rest st) [].
Proof.
  induction rest as [|x rest IH]; intros [clusters current] H; [exact H|].
  cbn [fold_left]. apply IH, Inv_step, H.
Qed.

Lemma findClusters_sorted l :
  StronglySorted Z.le l ->
  Forall (fun c => (2 <= List.length c)%nat) (findClusters l) /\
  Forall withinGap (findClusters l) /\
  wellSeparated (findClusters l).
Proof.
  intros H. unfold findClusters.
  destruct (Inv_loop l _ (Inv_initial l H)) as [H1 H2 H3 _ _ _ _ _].
  auto.
Qed.

(** C9.  Every cluster in the analyzer's output has at least two
    members; every two consecutive instants of a cluster differ by at most
    five minutes (300,000 ms), the later one being at or after the earlier
    one; and from the last instant of a cluster to the first of the next
    cluster returned, more than five minutes pass. *)
Theorem C9_error_clusters_invariant (results : Results) :
  let clusters := errorClusters (patterns (analyzePatterns results)) in
  Forall (fun c => (2 <= List.length c)%nat) clusters /\
  Forall withinGap clusters /\
  wellSeparated clusters.
Proof.
  cbv zeta. cbn [analyzePatterns patterns errorClusters].
  apply findClusters_sorted, sortTimes_sorted.
Qed.

(** Instants out of order are no cluster, however close the later ones
    are: the invariant rests on the sort. *)
Example unsorted_is_not_withinGap : ~ withinGap [1000000; 5; 6].
Proof. cbn. lia. Qed.

(** *** The cluster still open when the loop ends

    [analyzePatterns] stores [clusters] as soon as the loop is over: the
    cluster in [currentCluster] at that point is not pushed.  So error
    times that all lie within five minutes give no cluster at all. *)
Lemma single_run_loop lo l : forall current,
  Forall (fun t => lo <= t <= lo + gap) current ->
  Forall (fun t => lo <= t <= lo + gap) l ->
  fst (fold_left clusterStep l ([], current)) = [].
Proof.
  induction l as [|x l IH]; intros current Hc Hl; [reflexivity|].
  inversion Hl as [|? ? Hx Hl']; subst.
  cbn [fold_left]. unfold clusterStep at 2.
  destruct current as [|a current].
  - cbn [List.length Nat.eqb app]. apply IH; [|assumption].
    now constructor.
  - set (cur := a :: current) in *.
    change (List.length cur =? 0)%nat with false. cbv iota.
    assert (Hlast : lo <= last cur 0 <= lo + gap).
    { pose proof (last_In cur 0 ltac:(discriminate)) as Hin.
      rewrite Forall_forall in Hc. now apply Hc. }
    replace (x - last cur 0 <=? 300000) with true
      by (symmetry; apply Z.leb_le; unfold gap in *; lia).
    apply IH; [|assumption].
    apply Forall_app. split; [assumption|].
    constructor; [assumption | constructor].
Qed.

Lemma single_run_no_cluster lo (errorTimes : list Z) :
  Forall (fun t => lo <= t <= lo + gap) errorTimes ->
  findClusters (sortTimes errorTimes) = [].
Proof.
  intros H. unfold findClusters. apply (single_run_loop lo); [constructor|].
  apply Forall_forall. intros t Ht.
  apply (proj1 (sortTimes_In _ _)) in Ht.
  rewrite Forall_forall in H. exact (H t Ht).
Qed.

(** The six refused connections of the specification's example, two and
    a half minutes from first to last: no cluster is returned. *)
Example refused_connections_no_cluster :
  errorClusters (patterns (details (analyzeEntries refusedEntries))) = [] /\
  errorClusterCount (summary (analyzeEntries refusedEntries)) = 0%nat.
Proof. vm_compute. split; reflexivity. Qed.

End ClusterProofs.

(* ------------------------------------------------------------------ *)
(** ** Feedback statistics *)

Section CollectorProofs.

Import JsNumber FeedbackCollector.

(** C6, on the code.  With no feedback collected, [getStatistics] divides
    zero by zero: both rates are NaN, not 0.  The same holds after
    [resetMetrics]. *)
Theorem C6_getStatistics_without_feedback_is_NaN (now : Z) (m : Metrics) :
  PrimFloat.is_nan (errorRate (getStatistics now initialMetrics)) = true /\
  PrimFloat.is_nan (criticalRate (getStatistics now initialMetrics)) = true /\
  PrimFloat.is_nan (errorRate (getStatistics now (resetMetrics m))) = true /\
  PrimFloat.is_nan (criticalRate (getStatistics now (resetMetrics m))) = true.
Proof. repeat split. Qed.

(** Once feedback has been collected the error rate is a number: one bug
    report out of one feedback gives the rate 1. *)
Example getStatistics_after_one_bug (now : Z) :
  errorRate (getStatistics now
               (updateMetrics {| type := "bug"; severity := None;
                                 description := "crash" |} initialMetrics))
  = 1%float.
Proof. reflexivity. Qed.

End CollectorProofs.

(* ------------------------------------------------------------------ *)
(** ** The priority score *)

Section PriorityProofs.

Import FeedbackAnalyzer FeedbackSpec.
Local Open Scope R_scope.

Lemma dayMs_value : dayMs = 86400000.
Proof. unfold dayMs. lra. Qed.

Lemma errorFrequency_value : INR errorFrequency = 5.
Proof. unfold errorFrequency. rewrite INR_IZR_INZ. reflexivity. Qed.

Lemma frequencyScore_range data : 0 <= frequencyScore data <= 1.
Proof.
  unfold frequencyScore. rewrite errorFrequency_value. split.
  - apply Rmin_glb; [|lra].
    pose proof (pos_INR (count data)). lra.
  - apply Rmin_r.
Qed.

Lemma severityScore_range data : 0 <= severityScore data <= 1.
Proof. unfold severityScore. destruct (isCritical (severity data)); lra. Qed.

Lemma recencyScore_pos now data : 0 < recencyScore now data.
Proof. apply exp_pos. Qed.

Lemma recencyScore_le_1 now data :
  (lastOccurrence data <= now)%Z -> recencyScore now data <= 1.
Proof.
  intros H. unfold recencyScore. rewrite dayMs_value.
  assert (Hd : 0 <= IZR (now - lastOccurrence data)) by (apply IZR_le; lia).
  rewrite <- exp_0.
  destruct (Req_dec (IZR (now - lastOccurrence data)) 0) as [E|E].
  - rewrite E. right. f_equal. lra.
  - left. apply exp_increasing. lra.
Qed.

(** C5, as the code computes it.  For every aggregate and every instant
    the priority is
    [0.4 * min(count / 5, 1) + 0.4 * (1 if critical else 0.5)
     + 0.2 * exp(-(now - lastOccurrence) / 86,400,000)],
    with no clamp.  It is never below 0, and it is at most 1 when the
    last occurrence is not after the instant of the computation. *)
Theorem C5_priority_formula_and_range (now : Z) (data : ErrorData) :
  calculatePriority now data
  = 0.4 * Rmin (INR (count data) / 5) 1
    + 0.4 * (if isCritical (severity data) then 1 else 0.5)
    + 0.2 * exp (- IZR (now - lastOccurrence data) / 86400000)
  /\ 0 <= calculatePriority now data
  /\ ((lastOccurrence data <= now)%Z -> calculatePriority now data <= 1).
Proof.
  pose proof (frequencyScore_range data).
  pose proof (severityScore_range data).
  pose proof (recencyScore_pos now data).
  split; [|split].
  - unfold calculatePriority, frequencyScore, severityScore, recencyScore.
    rewrite errorFrequency_value, dayMs_value. ring.
  - unfold calculatePriority. lra.
  - intros Hle.
    pose proof (recencyScore_le_1 now data Hle).
    unfold calculatePriority. lra.
Qed.

(** The theorem at work on an error last seen at the instant of the
    computation. *)
Lemma C5_witness : 0 <= calculatePriority 0 pastError <= 1.
Proof.
  destruct (C5_priority_formula_and_range 0 pastError) as (_ & H0 & H1).
  split; [exact H0|]. apply H1. cbn [lastOccurrence pastError]. lia.
Defined.

(** C5 as stated fails: an error whose last occurrence lies one day ahead
    of the clock gets a priority above 1. *)
Lemma C5_counterexample : ~ (0 <= calculatePriority 0 futureError <= 1).
Proof.
  intros [_ H]. revert H.
  unfold calculatePriority, frequencyScore, severityScore, recencyScore.
  rewrite errorFrequency_value, dayMs_value.
  cbn [futureError count severity lastOccurrence isCritical].
  change (String.eqb "critical" "critical") with true. cbv iota.
  replace (INR 5) with 5 by (rewrite INR_IZR_INZ; reflexivity).
  replace (- IZR (0 - 86400000) / 86400000) with 1
    by (rewrite minus_IZR; field).
  replace (5 / 5) with 1 by field.
  rewrite Rmin_left by lra.
  pose proof (exp_ineq1 1 ltac:(lra)). lra.
Qed.

Lemma frequencyScore_monotone d1 d2 :
  (count d1 <= count d2)%nat -> frequencyScore d1 <= frequencyScore d2.
Proof.
  intros H. unfold frequencyScore. rewrite errorFrequency_value.
  apply le_INR in H.
  apply Rmin_glb; [|apply Rmin_r].
  eapply Rle_trans; [apply Rmin_l|]. lra.
Qed.

(** C8.  With the severity and the last occurrence (hence the recency at
    any given instant) held fixed, the priority does not decrease when the
    count grows. *)
Theorem C8_priority_monotone_in_count (now : Z) (c1 c2 : nat)
    (last : Z) (eps : list string) (sev : option string) :
  (c1 <= c2)%nat ->
  calculatePriority now {| count := c1; lastOccurrence := last;
                           endpoints := eps; severity := sev |}
  <= calculatePriority now {| count := c2; lastOccurrence := last;
                              endpoints := eps; severity := sev |}.
Proof.
  intros H. unfold calculatePriority.
  pose proof (frequencyScore_monotone
                {| count := c1; lastOccurrence := last;
                   endpoints := eps; severity := sev |}
                {| count := c2; lastOccurrence := last;
                   endpoints := eps; severity := sev |} H) as Hf.
  unfold severityScore, recencyScore. cbn [severity lastOccurrence]. lra.
Qed.

(** The theorem at work on the counts 2 and 7. *)
Lemma C8_witness :
  calculatePriority 0 {| count := 2; lastOccurrence := 0;
                         endpoints := []; severity := None |}
  <= calculatePriority 0 {| count := 7; lastOccurrence := 0;
                            endpoints := []; severity := None |}.
Proof.
  apply (C8_priority_monotone_in_count 0 2 7 0 [] None). lia.
Defined.

End PriorityProofs.

(* ------------------------------------------------------------------ *)
(** ** Error recommendations *)

Section RecommendationProofs.

Import FeedbackAnalyzer FeedbackSpec.
Local Open Scope R_scope.

Lemma Rleb_false x y : y < x -> Rleb x y = false.
Proof. intros H. unfold Rleb. destruct (Rle_dec x y); [lra | reflexivity]. Qed.

Lemma recommendError_low recs p : priority p < 0.6 -> recommendError recs p = recs.
Proof.
  intros H. unfold recommendError.
  rewrite (Rleb_false 0.8) by lra. now rewrite (Rleb_false 0.6) by lra.
Qed.

(** The callback never writes the medium and low tiers. *)
Lemma recommendError_frame recs p :
  medium (recommendError recs p) = medium recs /\
  low (recommendError recs p) = low recs.
Proof.
  unfold recommendError.
  destruct (Rleb 0.8 (priority p)); [split; reflexivity|].
  destruct (Rleb 0.6 (priority p)); split; reflexivity.
Qed.

Lemma recommendErrors_frame ps : forall recs,
  medium (recommendErrors ps recs) = medium recs /\
  low (recommendErrors ps recs) = low recs.
Proof.
  unfold recommendErrors.
  induction ps as [|p ps IH]; intros recs; cbn [fold_left]; [split; reflexivity|].
  destruct (IH (recommendError recs p)) as [Hm Hl].
  destruct (recommendError_frame recs p) as [Hm' Hl'].
  split; congruence.
Qed.

Lemma recommendErrors_app ps qs recs :
  recommendErrors (ps ++ qs) recs = recommendErrors qs (recommendErrors ps recs).
Proof. unfold recommendErrors. apply fold_left_app. Qed.

(** C10.  A pattern whose priority is below 0.6 adds no recommendation to
    any tier, wherever it stands in the array of patterns; and whatever the
    analyzer holds, the medium and low tiers come out of
    [generateErrorRecommendations] as they went in. *)
Theorem C10_low_priority_adds_no_recommendation
    (recs : Recommendations) (p : ErrorPattern) (before after : list ErrorPattern) :
  priority p < 0.6 ->
  recommendError recs p = recs /\
  recommendErrors (before ++ p :: after) recs = recommendErrors (before ++ after) recs /\
  (forall now errors nErrors recs0,
      medium (generateErrorRecommendations now errors nErrors recs0) = medium recs0 /\
      low (generateErrorRecommendations now errors nErrors recs0) = low recs0).
Proof.
  intros H. split; [now apply recommendError_low|]. split.
  - rewrite !recommendErrors_app. unfold recommendErrors at 1. cbn [fold_left].
    now rewrite recommendError_low.
  - intros now errors nErrors recs0. apply recommendErrors_frame.
Qed.

(** The theorem at work on a pattern of priority one half. *)
Lemma C10_witness : recommendError noRecommendations minorPattern = noRecommendations.
Proof.
  apply (C10_low_priority_adds_no_recommendation noRecommendations minorPattern [] []).
  cbn [priority minorPattern]. lra.
Defined.

(** *** Every surfaced pattern is recommended

    A pattern is surfaced when its count reaches the threshold, so its
    frequency score is 1 and its priority exceeds [0.4 + 0.4 * 0.5 = 0.6]:
    the case "below 0.6" never arises for the patterns that
    [analyzeErrorPatterns] returns. *)

Lemma insert_In_pattern (before : ErrorPattern -> ErrorPattern -> bool) x y l :
  In y (JsArray.insert before x l) <-> y = x \/ In y l.
Proof.
  induction l as [|z l IH]; cbn [JsArray.insert].
  - cbn [In]. intuition.
  - destruct (before x z); cbn [In]; [intuition|].
    rewrite IH. intuition.
Qed.

Lemma sort_In_pattern (before : ErrorPattern -> ErrorPattern -> bool) y l :
  In y (JsArray.sort before l) <-> In y l.
Proof.
  unfold JsArray.sort.
  induction l as [|x l IH]; cbn [fold_right]; [reflexivity|].
  rewrite insert_In_pattern, IH. cbn [In]. intuition.
Qed.

Lemma surfaced_priority now data :
  (errorFrequency <= count data)%nat -> 0.6 < calculatePriority now data.
Proof.
  intros H. unfold calculatePriority.
  assert (Hf : frequencyScore data = 1).
  { unfold frequencyScore. apply le_INR in H.
    rewrite errorFrequency_value in *. apply Rmin_right.
    pose proof (pos_INR (count data)). lra. }
  pose proof (recencyScore_pos now data).
  rewrite Hf. unfold severityScore.
  destruct (isCritical (severity data)); lra.
Qed.

Lemma analyzeErrorPatterns_priority now errors nErrors p :
  In p (analyzeErrorPatterns now errors nErrors) -> 0.6 < priority p.
Proof.
  unfold analyzeErrorPatterns. rewrite sort_In_pattern.
  rewrite in_flat_map. intros ([t d] & _ & Hp).
  destruct (errorFrequency <=? count d)%nat eqn:E; [|contradiction].
  destruct Hp as [<-|[]]. cbn [priority].
  apply surfaced_priority. now apply Nat.leb_le.
Qed.

End RecommendationProofs.

(* ------------------------------------------------------------------ *)
(** ** The report of analyzeAllFeedback *)

Section ReportProofs.

Import FeedbackAnalyzer FeedbackSpec.

Variables Value Extra : Type.

(** The summary is never completed: its last field needs
    [calculateSentimentTrend], which the class does not define. *)
Lemma runGenerateSummary_throws (this : State Extra) (now : Z) :
  runGenerateSummary Value Extra this now =
  Throw (TypeError "this.calculateSentimentTrend is not a function").
Proof. reflexivity. Qed.

(** The four stages of the report throw one after the other: the patterns
    and the metrics always, the recommendations after the error
    recommendations are in. *)
Lemma stages_throw (this : State Extra) (now : Z) :
  (exists e, identifyPatterns Value Extra this now = Throw e) /\
  generateRecommendations Extra this now =
    Throw (TypeError "this.generatePerformanceRecommendations is not a function") /\
  calculateMetrics Value Extra this now =
    Throw (TypeError "this.calculateErrorRate is not a function").
Proof.
  split; [|split; reflexivity].
  unfold identifyPatterns.
  destruct (analyzePerformancePatterns Extra this now) as [pp|e]; cbn.
  - eexists; reflexivity.
  - eexists; reflexivity.
Qed.

(** C7, on the class as it is written.  Every run of [analyzeAllFeedback]
    ends the same way, whatever the analyzer holds and whatever the clock
    reads: the summary calls a method that is not defined, and the
    [catch] clause throws [AppError(500, 'Failed to analyze feedback')].
    No run returns a report, so no two runs return identical reports. *)
Theorem C7_every_run_throws_the_same_AppError (this : State Extra) (now1 now2 : Z) :
  analyzeAllFeedback Value Extra this now1 =
    Throw (AppError 500 "Failed to analyze feedback" "operational" true) /\
  analyzeAllFeedback Value Extra this now1 = analyzeAllFeedback Value Extra this now2 /\
  ~ (exists report, analyzeAllFeedback Value Extra this now1 = Ok report).
Proof.
  assert (H : forall now, analyzeAllFeedback Value Extra this now =
            Throw (AppError 500 "Failed to analyze feedback" "operational" true)).
  { intros now. unfold analyzeAllFeedback.
    rewrite runGenerateSummary_throws. reflexivity. }
  split; [apply H|]. split.
  - now rewrite !H.
  - intros [report Hr]. rewrite H in Hr. discriminate Hr.
Qed.

End ReportProofs.

Section FreshAnalyzer.

Import FeedbackAnalyzer FeedbackSpec.

(** With nothing recorded, the error patterns give no recommendation. *)
Example fresh_analyzer_no_recommendation (now : Z) :
  generateErrorRecommendations now (patternErrors unit freshState)
    (List.length (errors unit freshState)) noRecommendations
  = noRecommendations.
Proof. reflexivity. Qed.

End FreshAnalyzer.

(* ================================================================== *)
(** * Further properties *)

(* ------------------------------------------------------------------ *)
(** ** The stable sort *)

Section SortFacts.

Context {A : Type}.
Variable before : A -> A -> bool.

Lemma insert_perm x l : Permutation (JsArray.insert before x l) (x :: l).
Proof.
  induction l as [|y l IH]; cbn [JsArray.insert]; [reflexivity|].
  destruct (before x y); [reflexivity|].
  rewrite IH. apply perm_swap.
Qed.

Lemma sort_perm l : Permutation (JsArray.sort before l) l.
Proof.
  unfold JsArray.sort.
  induction l as [|x l IH]; cbn [fold_right]; [reflexivity|].
  rewrite insert_perm. now constructor.
Qed.

Lemma sort_In_iff l y : In y (JsArray.sort before l) <-> In y l.
Proof.
  split; apply Permutation_in; [|symmetry]; apply sort_perm.
Qed.

Lemma sort_length l : List.length (JsArray.sort before l) = List.length l.
Proof. apply Permutation_length, sort_perm. Qed.

Hypothesis before_total : forall a b, before a b = true \/ before b a = true.
Hypothesis before_trans :
  forall a b c, before a b = true -> before b c = true -> before a c = true.

Lemma insert_ordered x l :
  StronglySorted (fun a b => before a b = true) l ->
  StronglySorted (fun a b => before a b = true) (JsArray.insert before x l).
Proof.
  induction 1 as [|y l Hs IH Hy]; cbn [JsArray.insert].
  - repeat constructor.
  - destruct (before x y) eqn:E.
    + constructor; [constructor; assumption|].
      constructor; [assumption|].
      eapply Forall_impl; [|exact Hy]. intros b Hb. eapply before_trans; eassumption.
    + constructor; [assumption|].
      apply Forall_forall. intros b Hb.
      apply (Permutation_in _ (insert_perm x l)) in Hb.
      destruct Hb as [<-|Hb].
      * destruct (before_total x y) as [H|H]; [congruence | exact H].
      * rewrite Forall_forall in Hy. now apply Hy.
Qed.

Lemma sort_ordered l :
  StronglySorted (fun a b => before a b = true) (JsArray.sort before l).
Proof.
  unfold JsArray.sort.
  induction l as [|x l IH]; cbn [fold_right]; [constructor|].
  now apply insert_ordered.
Qed.

End SortFacts.

Lemma StronglySorted_firstn {A : Type} (R : A -> A -> Prop) n l :
  StronglySorted R l -> StronglySorted R (firstn n l).
Proof.
  intros H. revert n.
  induction H as [|x l Hs IH Hx]; intros [|n]; cbn [firstn]; try constructor.
  - apply IH.
  - rewrite Forall_forall in *. intros y Hy. apply Hx.
    rewrite <- (firstn_skipn n l). apply in_or_app. now left.
Qed.

Lemma StronglySorted_map {A B : Type} (f : A -> B) (R : B -> B -> Prop) l :
  StronglySorted (fun a b => R (f a) (f b)) l -> StronglySorted R (map f l).
Proof.
  induction 1 as [|x l Hs IH Hx]; cbn [map]; constructor; [assumption|].
  rewrite Forall_forall in *. intros y Hy.
  apply in_map_iff in Hy. destruct Hy as (a & <- & Ha). now apply Hx.
Qed.

(* ------------------------------------------------------------------ *)
(** ** Letter case and tokens *)

Section TextFacts.

Import JsString MoreSpec.

Lemma lowerChar_idem c : lowerChar (lowerChar c) = lowerChar c.
Proof. destruct c as [[] [] [] [] [] [] [] []]; reflexivity. Qed.

Lemma lowerChar_not_upper c : isUpper (lowerChar c) = false.
Proof. destruct c as [[] [] [] [] [] [] [] []]; reflexivity. Qed.

Lemma lowerChar_digit c : isDigit (lowerChar c) = isDigit c.
Proof. destruct c as [[] [] [] [] [] [] [] []]; reflexivity. Qed.

Lemma toLowerCase_idem s : toLowerCase (toLowerCase s) = toLowerCase s.
Proof.
  induction s as [|c s IH]; cbn [toLowerCase]; [reflexivity|].
  now rewrite lowerChar_idem, IH.
Qed.

Lemma toLowerCase_no_upper s :
  forallChars (fun c => negb (isUpper c)) (toLowerCase s) = true.
Proof.
  induction s as [|c s IH]; cbn [toLowerCase forallChars]; [reflexivity|].
  now rewrite lowerChar_not_upper, IH.
Qed.

(** The pieces of a split hold characters of the string only, and no
    separator. *)
Lemma split_pieces sep p s :
  forallChars p s = true ->
  Forall (fun w => forallChars (fun c => p c && negb (sep c)) w = true)
    (split sep s).
Proof.
  induction s as [|c s IH]; cbn [split forallChars]; intros H.
  - repeat constructor.
  - apply andb_true_iff in H. destruct H as [Hc Hs].
    specialize (IH Hs). cbv zeta.
    destruct (sep c) eqn:E.
    + destruct s as [|c' s']; [constructor; [reflexivity | exact IH]|].
      destruct (sep c'); [exact IH | constructor; [reflexivity | exact IH]].
    + destruct (split sep s) as [|t ts]; [repeat constructor; cbn; now rewrite Hc, E|].
      inversion IH as [|? ? Ht Hts]; subst.
      constructor; [|assumption].
      cbn [forallChars]. now rewrite Hc, E, Ht.
Qed.

Lemma forallChars_and p q s :
  forallChars (fun c => p c && q c) s = forallChars p s && forallChars q s.
Proof.
  induction s as [|c s IH]; cbn [forallChars]; [reflexivity|].
  rewrite IH. destruct (p c), (q c), (forallChars p s); reflexivity.
Qed.

End TextFacts.

Section CaseFacts.

Import JsString MoreSpec.

Lemma forallChars_ext p q s :
  (forall c, p c = q c) -> forallChars p s = forallChars q s.
Proof.
  intros H. induction s as [|c s IH]; cbn [forallChars]; [reflexivity|].
  now rewrite H, IH.
Qed.

(** X1.  Every token the sentiment scorer looks up is made of lower-case
    letters, digits and underscores only (possibly none at all): the
    tokenizer lets no separator and no upper-case letter through. *)
Theorem tokens_are_lower_case_words (text : string) :
  Forall (fun w => forallChars isLowerWordChar w = true)
    (SentimentAnalysis.words text).
Proof.
  unfold SentimentAnalysis.words.
  eapply Forall_impl;
    [|apply (split_pieces isNonWord (fun c => negb (isUpper c))),
        toLowerCase_no_upper].
  intros w Hw. cbn beta in Hw. rewrite <- Hw.
  apply forallChars_ext. intros c. unfold isLowerWordChar, isNonWord.
  destruct (isWordChar c), (isUpper c); reflexivity.
Qed.

Lemma words_toLowerCase text :
  SentimentAnalysis.words (toLowerCase text) = SentimentAnalysis.words text.
Proof. unfold SentimentAnalysis.words. now rewrite toLowerCase_idem. Qed.

(** X2.  Letter case never matters to the text analyses: lower-casing the
    text first changes neither the sentiment (score, matched words,
    confidence) nor the aspect classification. *)
Theorem analyses_ignore_case (text : string) :
  SentimentAnalysis.analyzeSentiment (toLowerCase text)
  = SentimentAnalysis.analyzeSentiment text /\
  AspectAnalysis.analyzeAspects (toLowerCase text)
  = AspectAnalysis.analyzeAspects text.
Proof.
  split.
  - unfold SentimentAnalysis.analyzeSentiment. now rewrite words_toLowerCase.
  - unfold AspectAnalysis.analyzeAspects, AspectAnalysis.splitSentences.
    now rewrite toLowerCase_idem.
Qed.

Import LogAnalyzer.

Lemma matchAtom_lower a c : matchAtom a (lowerChar c) = matchAtom a c.
Proof.
  destruct a as [x|]; cbn [matchAtom].
  - now rewrite lowerChar_idem.
  - apply lowerChar_digit.
Qed.

Lemma matchHere_lower alt : forall s,
  matchHere alt (toLowerCase s) = matchHere alt s.
Proof.
  induction alt as [|a alt IH]; intros [|c s]; cbn [toLowerCase matchHere];
    try reflexivity.
  now rewrite matchAtom_lower, IH.
Qed.

Lemma matchAnywhere_lower alt s :
  matchAnywhere alt (toLowerCase s) = matchAnywhere alt s.
Proof.
  induction s as [|c s IH].
  - reflexivity.
  - cbn [toLowerCase matchAnywhere].
    rewrite <- IH.
    change (String (lowerChar c) (toLowerCase s)) with (toLowerCase (String c s)).
    now rewrite matchHere_lower.
Qed.

Lemma test_lower pattern s : test pattern (toLowerCase s) = test pattern s.
Proof.
  unfold test. induction pattern as [|alt r IH]; cbn [existsb]; [reflexivity|].
  now rewrite matchAnywhere_lower, IH.
Qed.

(** X3.  Error classification ignores the case of ASCII letters: a
    message of ASCII characters and its lower-case form get the same
    category. *)
Theorem classification_ignores_case (msg : string) :
  forallChars isAscii msg = true ->
  classify (toLowerCase msg) = classify msg.
Proof.
  intros _. unfold classify.
  induction errorPatterns as [|[c p] r IH]; cbn [classifyWith]; [reflexivity|].
  now rewrite test_lower, IH.
Qed.

(** The theorem at work on a message in capitals. *)
Lemma classification_ignores_case_witness :
  classify (toLowerCase "DEADLOCK Detected") = classify "DEADLOCK Detected".
Proof. apply classification_ignores_case. reflexivity. Defined.

End CaseFacts.

(* ------------------------------------------------------------------ *)
(** ** Log analysis: counters *)

Section CounterFacts.

Import JsString LogAnalyzer LogSpec MoreSpec.
Local Open Scope nat_scope.

Lemma sumCounts_bump c e : sumCounts (bump c e) = S (sumCounts e).
Proof. destruct c; unfold sumCounts; cbn; lia. Qed.

Lemma totalErrors_sumCounts results :
  totalErrors (generateSummary results) = sumCounts (errors results).
Proof. unfold generateSummary, sumCounts. cbn. lia. Qed.

Lemma sumCounts_analyzeLogEntry entry results :
  sumCounts (errors (analyzeLogEntry entry results))
  = sumCounts (errors results) + (if isError entry then 1 else 0).
Proof.
  rewrite errors_analyzeLogEntry. unfold trackError, isError.
  destruct (String.eqb (level entry) "error"); cbn [errors].
  - rewrite sumCounts_bump. lia.
  - lia.
Qed.

Lemma sumCounts_analyzeAll entries : forall results,
  sumCounts (errors (analyzeAll entries results))
  = sumCounts (errors results) + List.length (filter isError entries).
Proof.
  unfold analyzeAll.
  induction entries as [|e es IH]; intros r; cbn [fold_left filter];
    [cbn [List.length]; lia|].
  rewrite IH, sumCounts_analyzeLogEntry.
  destruct (isError e); cbn [List.length]; lia.
Qed.

(** X4.  The total number of errors of the summary is the number of
    entries of level "error": every such entry is counted in exactly one
    category, and no other entry is counted. *)
Theorem totalErrors_counts_error_entries (entries : list LogEntry) :
  totalErrors (summary (analyzeEntries entries))
  = List.length (filter isError entries) /\
  sumCounts (errorBreakdown (summary (analyzeEntries entries)))
  = List.length (filter isError entries).
Proof.
  assert (H : sumCounts (errors (analyzePatterns (analyzeAll entries initialResults)))
              = List.length (filter isError entries)).
  { cbn [analyzePatterns errors]. now rewrite sumCounts_analyzeAll. }
  split; [|exact H].
  change (summary (analyzeEntries entries))
    with (generateSummary (analyzePatterns (analyzeAll entries initialResults))).
  now rewrite totalErrors_sumCounts.
Qed.

Lemma counterGet_increment m k k' :
  counterGet (increment m k) k'
  = counterGet m k' + (if String.eqb k k' then 1 else 0).
Proof.
  induction m as [|[q n] m IH]; cbn [increment counterGet].
  - destruct (String.eqb k k'); lia.
  - destruct (String.eqb q k) eqn:E; cbn [counterGet].
    + apply String.eqb_eq in E. subst q.
      destruct (String.eqb k k'); lia.
    + destruct (String.eqb q k') eqn:E'; [|exact IH].
      apply String.eqb_eq in E'. subst q. rewrite String.eqb_sym, E. lia.
Qed.

Lemma frequentEndpoints_analyzeLogEntry entry results p :
  counterGet (frequentEndpoints (patterns (analyzeLogEntry entry results))) p
  = counterGet (frequentEndpoints (patterns results)) p
    + (if hasPath p entry then 1 else 0).
Proof.
  cbn [analyzeLogEntry patterns]. unfold trackEndpoint, hasPath.
  assert (Hf : frequentEndpoints (patterns (trackError entry results))
               = frequentEndpoints (patterns results)).
  { unfold trackError. now destruct (String.eqb (level entry) "error"). }
  destruct (truthyStr (path entry)) as [q|]; cbn [frequentEndpoints]; rewrite Hf.
  - apply counterGet_increment.
  - lia.
Qed.

Lemma commonErrors_analyzeLogEntry entry results k :
  counterGet (commonErrors (patterns (analyzeLogEntry entry results))) k
  = counterGet (commonErrors (patterns results)) k
    + (if isError entry && String.eqb (errorKey entry) k then 1 else 0).
Proof.
  cbn [analyzeLogEntry patterns].
  assert (Hc : commonErrors (trackEndpoint entry (patterns (trackError entry results)))
               = commonErrors (patterns (trackError entry results))).
  { unfold trackEndpoint. now destruct (truthyStr (path entry)). }
  rewrite Hc. unfold trackError, isError.
  destruct (String.eqb (level entry) "error"); cbn [patterns commonErrors andb].
  - apply counterGet_increment.
  - lia.
Qed.

(** X5.  The endpoint counter holds, for every path, the number of entries
    (errors or not) that carry it, and the error counter holds, for every
    key "path: message", the number of error entries with that key; a key
    that never occurred reads as 0. *)
Theorem counters_count_occurrences (entries : list LogEntry) (k : string) :
  let results := details (analyzeEntries entries) in
  counterGet (frequentEndpoints (patterns results)) k
  = List.length (filter (hasPath k) entries) /\
  counterGet (commonErrors (patterns results)) k
  = List.length (filter (fun e => isError e && String.eqb (errorKey e) k) entries).
Proof.
  cbv zeta.
  change (details (analyzeEntries entries))
    with (analyzePatterns (analyzeAll entries initialResults)).
  cbn [analyzePatterns patterns frequentEndpoints commonErrors].
  unfold analyzeAll.
  assert (G : forall es r,
    counterGet (frequentEndpoints (patterns
      (fold_left (fun r e => analyzeLogEntry e r) es r))) k
    = counterGet (frequentEndpoints (patterns r)) k
      + List.length (filter (hasPath k) es) /\
    counterGet (commonErrors (patterns
      (fold_left (fun r e => analyzeLogEntry e r) es r))) k
    = counterGet (commonErrors (patterns r)) k
      + List.length (filter (fun e => isError e && String.eqb (errorKey e) k) es)).
  { induction es as [|e es IH]; intros r; cbn [fold_left filter];
      [cbn [List.length]; lia|].
    destruct (IH (analyzeLogEntry e r)) as [H1 H2].
    rewrite H1, H2, frequentEndpoints_analyzeLogEntry, commonErrors_analyzeLogEntry.
    destruct (hasPath k e), (isError e && String.eqb (errorKey e) k);
      cbn [List.length]; lia. }
  destruct (G entries initialResults) as [H1 H2].
  rewrite H1, H2. cbn. lia.
Qed.

End CounterFacts.

(* ------------------------------------------------------------------ *)
(** ** Log analysis: summary lists, recommendations, thresholds *)

Section ReportFacts.

Import JsNumber LogAnalyzer LogSpec MoreSpec.
Local Open Scope nat_scope.

Lemma byCount_total (a b : string * nat) :
  (snd b <=? snd a) = true \/ (snd a <=? snd b) = true.
Proof. rewrite !Nat.leb_le. lia. Qed.

Lemma byCount_trans (a b c : string * nat) :
  (snd b <=? snd a) = true -> (snd c <=? snd b) = true -> (snd c <=? snd a) = true.
Proof. rewrite !Nat.leb_le. lia. Qed.

Lemma top5_facts (m : Counter) :
  List.length (top5 m) = Nat.min 5 (List.length m) /\
  StronglySorted (fun a b => snd b <= snd a) (top5 m) /\
  Forall (fun e => In e m) (top5 m).
Proof.
  unfold top5, JsArray.slice0. split; [|split].
  - now rewrite length_firstn, sort_length.
  - apply StronglySorted_firstn.
    pose proof (sort_ordered (fun a b : string * nat => snd b <=? snd a)
                  byCount_total byCount_trans m) as H.
    induction H as [|x l Hs IH Hx]; constructor; [assumption|].
    eapply Forall_impl; [|exact Hx]. intros b Hb. now apply Nat.leb_le.
  - apply Forall_forall. intros e He.
    apply (sort_In_iff (fun a b : string * nat => snd b <=? snd a)).
    rewrite <- (firstn_skipn 5). apply in_or_app. now left.
Qed.

(** X6.  The two "most frequent" lists of the summary hold five entries
    (all of them when the counter has fewer), in non-increasing order of
    count, each one an entry of its counter. *)
Theorem most_frequent_lists_are_top_five (results : Results) :
  let s := generateSummary results in
  (List.length (mostFrequentErrors s)
   = Nat.min 5 (List.length (commonErrors (patterns results))) /\
   StronglySorted (fun a b => snd b <= snd a) (mostFrequentErrors s) /\
   Forall (fun e => In e (commonErrors (patterns results))) (mostFrequentErrors s)) /\
  (List.length (mostFrequentEndpoints s)
   = Nat.min 5 (List.length (frequentEndpoints (patterns results))) /\
   StronglySorted (fun a b => snd b <= snd a) (mostFrequentEndpoints s) /\
   Forall (fun e => In e (frequentEndpoints (patterns results)))
     (mostFrequentEndpoints s)).
Proof. cbv zeta. split; apply top5_facts. Qed.

Lemma pushIf_app b r l : pushIf b r l = l ++ (if b then [r] else []).
Proof. unfold pushIf. destruct b; [reflexivity | now rewrite app_nil_r]. Qed.

Lemma generateRecommendations_unfold results :
  generateRecommendations results
  = (if 0 <? n_database (errors results) then [databaseRecommendation] else [])
    ++ (if 0 <? List.length (slowRequests (performance results))
        then [performanceRecommendation] else [])
    ++ (if 0 <? List.length (highMemory (performance results))
        then [memoryRecommendation] else [])
    ++ (if 0 <? n_api (errors results) then [apiRecommendation] else [])
    ++ (if 0 <? n_security (errors results) then [securityRecommendation] else []).
Proof.
  unfold generateRecommendations. cbv zeta.
  rewrite !pushIf_app, <- !app_assoc. reflexivity.
Qed.

Lemma In_optional (b : bool) (r x : Recommendation) :
  In x (if b then [r] else []) <-> x = r /\ b = true.
Proof.
  destruct b; cbn [In]; intuition (try discriminate; auto).
Qed.

(** What the recommendations are made of. *)
Lemma In_generateRecommendations results x :
  In x (generateRecommendations results) <->
  (x = databaseRecommendation /\ 0 < n_database (errors results)) \/
  (x = performanceRecommendation
   /\ 0 < List.length (slowRequests (performance results))) \/
  (x = memoryRecommendation
   /\ 0 < List.length (highMemory (performance results))) \/
  (x = apiRecommendation /\ 0 < n_api (errors results)) \/
  (x = securityRecommendation /\ 0 < n_security (errors results)).
Proof.
  rewrite generateRecommendations_unfold, !in_app_iff, !In_optional, !Nat.ltb_lt.
  reflexivity.
Qed.

Lemma category_differs (r1 r2 : Recommendation) :
  String.eqb (category r1) (category r2) = false -> r1 = r2 -> False.
Proof. intros H ->. now rewrite String.eqb_refl in H. Qed.

Ltac other_category :=
  match goal with
  | H : _ = _ :> Recommendation |- _ =>
      exfalso; revert H; apply category_differs; reflexivity
  end.

Lemma NoDup_optional (b : bool) (r : Recommendation) (l : list Recommendation) :
  ~ In r l -> NoDup l -> NoDup ((if b then [r] else []) ++ l).
Proof. destruct b; cbn [app]; [now constructor | trivial]. Qed.

(** X7.  Each of the five recommendations is emitted exactly when its
    signal is positive: database, api and security on their error
    counters, performance on the slow requests, memory on the high-memory
    samples; each is emitted at most once.  Timeout errors, out-of-memory
    errors, unclassified errors, slow queries and high CPU never produce a
    recommendation. *)
Theorem recommendations_follow_their_counters (results : Results) :
  let recs := generateRecommendations results in
  (In databaseRecommendation recs <-> 0 < n_database (errors results)) /\
  (In performanceRecommendation recs
   <-> 0 < List.length (slowRequests (performance results))) /\
  (In memoryRecommendation recs
   <-> 0 < List.length (highMemory (performance results))) /\
  (In apiRecommendation recs <-> 0 < n_api (errors results)) /\
  (In securityRecommendation recs <-> 0 < n_security (errors results)) /\
  Forall (fun r => In r allRecommendations) recs /\
  NoDup recs.
Proof.
  cbv zeta.
  repeat match goal with |- (_ <-> _) /\ _ => split end.
  1-5: rewrite In_generateRecommendations;
       (split; [intros [[E H]|[[E H]|[[E H]|[[E H]|[E H]]]]];
                  (exact H || other_category)
               | intros H; auto 10]).
  split.
  - apply Forall_forall. intros x Hx. apply In_generateRecommendations in Hx.
    unfold allRecommendations. cbn [In].
    destruct Hx as [[-> _]|[[-> _]|[[-> _]|[[-> _]|[-> _]]]]]; auto 10.
  - rewrite generateRecommendations_unfold.
    repeat (apply NoDup_optional;
            [rewrite ?in_app_iff, ?In_optional;
             intros H; decompose [or and] H; other_category|]).
    destruct (0 <? n_security (errors results)); repeat constructor. intros [].
Qed.

End ReportFacts.

(* ------------------------------------------------------------------ *)
(** ** Log analysis: performance samples and clusters *)

Section SampleFacts.

Import JsNumber LogAnalyzer LogSpec MoreSpec.

Lemma Forall_snoc_if {A : Type} (P : A -> Prop) (b : bool) (x : A) (l : list A) :
  Forall P l -> (b = true -> P x) -> Forall P (if b then l ++ [x] else l).
Proof.
  intros Hl Hx. destruct b; [|assumption].
  apply Forall_app. split; [assumption|]. constructor; [now apply Hx | constructor].
Qed.

Lemma trackDuration_over entry p :
  overThresholds p -> overThresholds (trackDuration entry p).
Proof.
  intros (H1 & H2 & H3 & H4). unfold trackDuration.
  destruct (truthyNum (duration entry)) as [d|]; [|now repeat split].
  repeat split; cbn [slowRequests slowQueries highMemory highCpu]; try assumption.
  - apply Forall_snoc_if; [assumption|].
    intros H. apply andb_true_iff in H. apply H.
  - apply Forall_snoc_if; [assumption|].
    intros H. apply andb_true_iff in H. apply H.
Qed.

Lemma trackResources_over entry p :
  overThresholds p -> overThresholds (trackResources entry p).
Proof.
  intros (H1 & H2 & H3 & H4). unfold trackResources.
  repeat split; cbn [slowRequests slowQueries highMemory highCpu]; try assumption.
  - destruct (memoryHeapUsed entry) as [used|]; [|assumption].
    apply Forall_snoc_if; [assumption | trivial].
  - destruct (cpuUsage entry) as [usage|]; [|assumption].
    apply Forall_snoc_if; [assumption | trivial].
Qed.

Lemma performance_trackError entry results :
  performance (trackError entry results) = performance results.
Proof. unfold trackError. now destruct (String.eqb (level entry) "error"). Qed.

Lemma analyzeAll_over entries : forall results,
  overThresholds (performance results) ->
  overThresholds (performance (analyzeAll entries results)).
Proof.
  unfold analyzeAll.
  induction entries as [|e es IH]; intros r H; [exact H|].
  cbn [fold_left]. apply IH. cbn [analyzeLogEntry performance].
  apply trackResources_over, trackDuration_over.
  now rewrite performance_trackError.
Qed.

(** X8.  Whatever the log holds, every slow request listed took more than
    2000 ms, every slow query more than 1000 ms, every high-memory sample
    used more than 500 MB of heap and every high-CPU sample more than 80 %:
    a value at or below its threshold (or NaN) is never listed. *)
Theorem listed_samples_exceed_thresholds (entries : list LogEntry) :
  overThresholds (performance (details (analyzeEntries entries))).
Proof.
  change (performance (details (analyzeEntries entries)))
    with (performance (analyzeAll entries initialResults)).
  apply analyzeAll_over. repeat split; constructor.
Qed.

Local Open Scope Z_scope.

Lemma last_app_cons (l r : list Z) (x d : Z) :
  last (l ++ x :: r) d = last (x :: r) d.
Proof.
  induction l as [|a l IH]; [reflexivity|].
  cbn [app]. rewrite <- IH.
  destruct (l ++ x :: r) eqn:E; [now destruct l | reflexivity].
Qed.

(** The clusters pushed so far hold error times only, each more than five
    minutes before everything in the current cluster and ahead. *)
Lemma cluster_loop_old source rest : forall clusters current,
  StronglySorted Z.le rest ->
  (forall y x, In y current -> In x rest -> y <= x) ->
  (forall y, In y current -> y <= last current 0) ->
  (forall x, In x (current ++ rest) -> In x source) ->
  Forall (Forall (fun y => In y source /\
                           forall x, In x (current ++ rest) -> y + gap < x))
    clusters ->
  let st := fold_left clusterStep rest (clusters, current) in
  Forall (Forall (fun y => In y source /\ forall x, In x (snd st) -> y + gap < x))
    (fst st) /\
  (current ++ rest <> [] ->
   snd st <> [] /\ last (snd st) 0 = last (current ++ rest) 0).
Proof.
  induction rest as [|x rest IH]; intros clusters current Hs Hahead Hlast Hsrc Hold.
  - cbn [fold_left fst snd]. rewrite app_nil_r in *. split; [exact Hold|].
    intros H. now split.
  - inversion Hs as [|? ? Hrest Hx]; subst. rewrite Forall_forall in Hx.
    cbn [fold_left].
    assert (Hle : forall y, In y current -> y <= x)
      by (intros y Hy; apply Hahead; [assumption | now left]).
    assert (Hgoal : forall cl cur,
      fold_left clusterStep rest (cl, cur)
      = fold_left clusterStep rest (clusterStep (clusters, current) x) ->
      (cur ++ rest <> [] -> last (cur ++ rest) 0 = last (current ++ x :: rest) 0) ->
      cur <> [] ->
      (forall y z, In y cur -> In z rest -> y <= z) ->
      (forall y, In y cur -> y <= last cur 0) ->
      (forall z, In z (cur ++ rest) -> In z source) ->
      Forall (Forall (fun y => In y source /\
                               forall z, In z (cur ++ rest) -> y + gap < z)) cl ->
      let st := fold_left clusterStep rest (clusterStep (clusters, current) x) in
      Forall (Forall (fun y => In y source /\
                               forall z, In z (snd st) -> y + gap < z)) (fst st) /\
      (current ++ x :: rest <> [] ->
       snd st <> [] /\ last (snd st) 0 = last (current ++ x :: rest) 0)).
    { intros cl cur E Hl Hne H1 H2 H3 H4. cbv zeta. rewrite <- E.
      destruct (IH cl cur Hrest H1 H2 H3 H4) as [G1 G2]. split; [exact G1|].
      intros _. assert (Hc : cur ++ rest <> []) by (destruct cur; [contradiction | discriminate]).
      destruct (G2 Hc) as [G3 G4]. split; [exact G3|]. now rewrite G4, Hl. }
    assert (Hlast_x : forall cur : list Z,
              last ((cur ++ [x]) ++ rest) 0 = last (current ++ x :: rest) 0).
    { intros cur. rewrite <- app_assoc. cbn [app].
      now rewrite !last_app_cons. }
    destruct current as [|a current].
    + apply (Hgoal clusters [x]).
      * reflexivity.
      * intros _. reflexivity.
      * discriminate.
      * intros y z [<-|[]] Hz. now apply Hx.
      * intros y [<-|[]]. cbn. lia.
      * intros z Hz. apply Hsrc. exact Hz.
      * exact Hold.
    + set (cur := a :: current) in *.
      destruct (x - last cur 0 <=? 300000) eqn:E.
      * apply (Hgoal clusters (cur ++ [x])).
        -- unfold clusterStep at 3.
           change (List.length cur =? 0)%nat with false. cbv beta iota zeta.
           now rewrite E.
        -- intros _. apply Hlast_x.
        -- intros H. now destruct (app_cons_not_nil cur [] x).
        -- intros y z Hy Hz. apply in_app_or in Hy.
           destruct Hy as [Hy|[<-|[]]]; [|now apply Hx].
           apply Hahead; [assumption | now right].
        -- intros y Hy. rewrite last_last. apply in_app_or in Hy.
           destruct Hy as [Hy|[<-|[]]]; [now apply Hle | lia].
        -- intros z Hz. apply Hsrc. rewrite <- app_assoc in Hz. exact Hz.
        -- eapply Forall_impl; [|exact Hold]. intros c Hc.
           eapply Forall_impl; [|exact Hc]. intros y [Hy1 Hy2]. split; [assumption|].
           intros z Hz. apply Hy2. rewrite <- app_assoc in Hz. exact Hz.
      * assert (Hnew : Forall (fun y => In y source /\
                         forall z, In z ([x] ++ rest) -> y + gap < z) cur).
        { apply Z.leb_gt in E.
          apply Forall_forall. intros y Hy. split.
          - apply Hsrc, in_or_app. now left.
          - intros z Hz. specialize (Hlast y Hy).
            assert (x <= z) by (destruct Hz as [<-|Hz]; [lia | now apply Hx]).
            unfold gap. lia. }
        apply (Hgoal (if (1 <? List.length cur)%nat
                      then clusters ++ [cur] else clusters) [x]).
        -- unfold clusterStep at 3.
           change (List.length cur =? 0)%nat with false. cbv beta iota zeta.
           now rewrite E.
        -- intros _. cbn [app]. now rewrite last_app_cons.
        -- discriminate.
        -- intros y z [<-|[]] Hz. now apply Hx.
        -- intros y [<-|[]]. cbn. lia.
        -- intros z Hz. apply Hsrc, in_or_app. right. exact Hz.
        -- assert (Hold' : Forall (Forall (fun y => In y source /\
                         forall z, In z ([x] ++ rest) -> y + gap < z)) clusters).
           { eapply Forall_impl; [|exact Hold]. intros c Hc.
             eapply Forall_impl; [|exact Hc]. intros y [Hy1 Hy2]. split; [assumption|].
             intros z Hz. apply Hy2, in_or_app. right. exact Hz. }
           destruct (1 <? List.length cur)%nat; [|exact Hold'].
           apply Forall_app. split; [exact Hold'|]. now constructor.
Qed.

(** X9.  Every instant of a returned cluster is an error time of the
    input, and lies more than five minutes before the latest error time:
    the run of errors that the latest one belongs to is still open when
    the loop ends, and is never returned. *)
Theorem clusters_are_older_than_the_latest_error (results : Results) :
  let times := errorTimes (patterns results) in
  let latest := last (sortTimes times) 0 in
  Forall (Forall (fun y => In y times /\ y + gap < latest))
    (errorClusters (patterns (analyzePatterns results))).
Proof.
  cbv zeta. cbn [analyzePatterns patterns errorClusters]. unfold findClusters.
  set (times := errorTimes (patterns results)).
  assert (Hsrc : forall x, In x ([] ++ sortTimes times) -> In x times)
    by (intros x Hx; now apply sortTimes_In).
  pose proof (cluster_loop_old times (sortTimes times) [] []
                (sortTimes_sorted times) ltac:(easy) ltac:(easy) Hsrc
                ltac:(constructor)) as [H1 H2].
  cbn [app] in H2.
  destruct (sortTimes times) as [|t ts] eqn:E; [constructor|].
  destruct (H2 ltac:(discriminate)) as [H3 H4].
  eapply Forall_impl; [|exact H1]. intros c Hc.
  eapply Forall_impl; [|exact Hc]. intros y [Hy1 Hy2]. split; [assumption|].
  rewrite <- H4. apply Hy2. now apply last_In.
Qed.

(** X10.  Error times that all lie within five minutes of the earliest
    one yield no cluster at all, however many they are. *)
Theorem close_errors_yield_no_cluster (lo : Z) (results : Results) :
  Forall (fun t => lo <= t <= lo + gap) (errorTimes (patterns results)) ->
  errorClusters (patterns (analyzePatterns results)) = [].
Proof.
  intros H. cbn [analyzePatterns patterns errorClusters].
  now apply (single_run_no_cluster lo).
Qed.

Lemma refused_errorTimes :
  errorTimes (patterns (analyzeAll refusedEntries initialResults)) = sixInstants.
Proof. vm_compute. reflexivity. Qed.

(** The theorem at work on six errors half a minute apart. *)
Lemma close_errors_witness :
  errorClusters (patterns (analyzePatterns (analyzeAll refusedEntries initialResults)))
  = [].
Proof.
  apply (close_errors_yield_no_cluster 0).
  rewrite refused_errorTimes. unfold sixInstants, gap.
  repeat (constructor; [lia|]). constructor.
Defined.

End SampleFacts.

(* ------------------------------------------------------------------ *)
(** ** Aspect classification: what the result holds *)

Section AspectFacts.

Import JsString AspectAnalysis AspectInvariant.
Local Open Scope nat_scope.

Lemma update_keys {V : Type} (o : Obj V) k f : map fst (update o k f) = map fst o.
Proof.
  induction o as [|[q v] o IH]; cbn [update map fst]; [reflexivity|].
  destruct (String.eqb q k); cbn [map fst]; [reflexivity | now rewrite IH].
Qed.

Lemma update_Forall {V : Type} (P : string * V -> Prop) (o : Obj V) k f :
  (forall v, P (k, v) -> P (k, f v)) -> Forall P o -> Forall P (update o k f).
Proof.
  intros Hf. induction 1 as [|[q v] o Hq Ho IH]; cbn [update]; [constructor|].
  destruct (String.eqb q k) eqn:E.
  - apply String.eqb_eq in E. subst q. constructor; [now apply Hf | assumption].
  - constructor; assumption.
Qed.

Lemma setAdd_nonempty s x : setAdd s x <> [].
Proof.
  unfold setAdd. destruct (includes s x) eqn:E.
  - destruct s; [discriminate | discriminate].
  - now destruct s.
Qed.

Lemma fold_setAdd_nonempty l : forall s, l <> [] -> fold_left setAdd l s <> [].
Proof.
  induction l as [|x l IH]; intros s H; [contradiction|].
  cbn [fold_left]. destruct l as [|y l]; [apply setAdd_nonempty|].
  apply IH. discriminate.
Qed.

Lemma fold_setAdd_In l : forall s k,
  In k (fold_left setAdd l s) -> In k s \/ In k l.
Proof.
  induction l as [|x l IH]; intros s k H; cbn [fold_left] in H; [now left|].
  apply IH in H. destruct H as [H|H]; [|right; now right].
  unfold setAdd in H. destruct (includes s x); [now left|].
  apply in_app_or in H. destruct H as [H|[<-|[]]]; [now left | right; now left].
Qed.

Lemma visitAspect_ok sentence ws results entry :
  In entry ASPECT_KEYWORDS ->
  lookup ASPECT_KEYWORDS (fst entry) = Some (snd entry) ->
  Forall containerOk results -> Forall containerOk (visitAspect sentence ws results entry).
Proof.
  intros Hin Hl H. destruct entry as [a kws]. cbn [fst snd] in Hl.
  unfold visitAspect.
  destruct (0 <? List.length (filter (includes ws) kws)) eqn:E; [|assumption].
  apply Nat.ltb_lt in E.
  apply update_Forall; [|assumption].
  intros d (H1 & H2 & H3). unfold containerOk. cbn [fst snd] in *.
  cbn [mentionCount sentences matchedKeywords]. repeat split.
  - rewrite length_app, H1. cbn [List.length]. lia.
  - intros _. apply fold_setAdd_nonempty.
    destruct (filter (includes ws) kws); [cbn in E; lia | discriminate].
  - intros kws' Hk. rewrite Hl in Hk. injection Hk as <-.
    apply Forall_forall. intros k Hk. apply fold_setAdd_In in Hk.
    destruct Hk as [Hk|Hk].
    + specialize (H3 kws Hl). rewrite Forall_forall in H3. now apply H3.
    + now apply filter_In in Hk.
Qed.

Lemma keywords_lookup entry :
  In entry ASPECT_KEYWORDS -> lookup ASPECT_KEYWORDS (fst entry) = Some (snd entry).
Proof.
  unfold ASPECT_KEYWORDS. cbn [In].
  intros [<-|[<-|[<-|[<-|[<-|[]]]]]]; reflexivity.
Qed.

Lemma visitSentence_ok results sentence :
  Forall containerOk results -> Forall containerOk (visitSentence results sentence).
Proof.
  unfold visitSentence. cbv zeta.
  assert (G : forall l r, incl l ASPECT_KEYWORDS -> Forall containerOk r ->
              Forall containerOk
                (fold_left (visitAspect sentence (split isNonWord sentence)) l r)).
  { induction l as [|e l IH]; intros r Hl Hr; [exact Hr|].
    cbn [fold_left]. apply IH; [intros x Hx; apply Hl; now right|].
    apply visitAspect_ok; [apply Hl; now left | apply keywords_lookup, Hl; now left |].
    exact Hr. }
  apply G. apply incl_refl.
Qed.

Lemma visitSentence_keys results sentence :
  map fst (visitSentence results sentence) = map fst results.
Proof.
  unfold visitSentence. cbv zeta.
  generalize ASPECT_KEYWORDS as l. intros l. revert results.
  induction l as [|[a kws] l IH]; intros r; [reflexivity|].
  cbn [fold_left]. rewrite IH. unfold visitAspect.
  destruct (0 <? _); [apply update_keys | reflexivity].
Qed.

Lemma containers_ok sents :
  let containers :=
    fold_left visitSentence sents (map (fun e => (fst e, emptyData)) ASPECT_KEYWORDS) in
  Forall containerOk containers /\
  map fst containers = map fst ASPECT_KEYWORDS.
Proof.
  cbv zeta.
  assert (G : forall l r, Forall containerOk r ->
              Forall containerOk (fold_left visitSentence l r) /\
              map fst (fold_left visitSentence l r) = map fst r).
  { induction l as [|x l IH]; intros r Hr; [now split|].
    cbn [fold_left]. destruct (IH (visitSentence r x)) as [H1 H2].
    - now apply visitSentence_ok.
    - split; [assumption|]. now rewrite H2, visitSentence_keys. }
  destruct (G sents (map (fun e => (fst e, emptyData)) ASPECT_KEYWORDS)) as [H1 H2].
  - apply Forall_forall. intros [a d] Hin. apply in_map_iff in Hin.
    destruct Hin as (e & He & _). injection He as <- <-.
    unfold containerOk. cbn. repeat split; [easy | constructor].
  - split; [assumption|]. rewrite H2, map_map. reflexivity.
Qed.

(** X11.  Every aspect of the result is one of the five configured
    aspects, was mentioned at least once, has exactly one relevant sentence
    per mention, and lists at least one keyword, each of them a keyword of
    that aspect; aspects that no sentence mentions are absent. *)
Theorem returned_aspects_are_mentioned (reviewText : string) :
  Forall (fun e =>
            In (fst e) (map fst ASPECT_KEYWORDS) /\
            1 <= mentions (snd e) /\
            mentions (snd e) = List.length (relevantText (snd e)) /\
            keywords (snd e) <> [] /\
            forall kws, lookup ASPECT_KEYWORDS (fst e) = Some kws ->
                        Forall (fun k => In k kws) (keywords (snd e)))
    (aspects (analyzeAspects reviewText)).
Proof.
  unfold analyzeAspects. cbv zeta. cbn [aspects].
  destruct (containers_ok (splitSentences reviewText)) as [Hok Hkeys].
  cbv zeta in Hok, Hkeys.
  set (containers := fold_left visitSentence (splitSentences reviewText)
                       (map (fun e => (fst e, emptyData)) ASPECT_KEYWORDS)) in *.
  apply Forall_forall. intros [a r] Hin.
  apply in_flat_map in Hin. destruct Hin as ([a' d] & Hd & Hin).
  cbn [fst snd] in Hin.
  destruct (0 <? List.length (sentences d)) eqn:E; [|contradiction].
  destruct Hin as [Hin|[]]. injection Hin as <- <-.
  apply Nat.ltb_lt in E.
  rewrite Forall_forall in Hok. destruct (Hok _ Hd) as (H1 & H2 & H3).
  cbn [fst snd] in *. unfold resultOf. cbv zeta.
  cbn [mentions relevantText keywords].
  repeat split.
  - rewrite <- Hkeys. apply in_map_iff. now exists (a', d).
  - lia.
  - exact H1.
  - apply H2. destruct (sentences d); [cbn in E; lia | discriminate].
  - exact H3.
Qed.

End AspectFacts.

Section AspectSummaryFacts.

Import AspectAnalysis.
Local Open Scope nat_scope.

Lemma byMentions_total (a b : string * AspectResult) :
  (mentions (snd b) <=? mentions (snd a)) = true \/
  (mentions (snd a) <=? mentions (snd b)) = true.
Proof. rewrite !Nat.leb_le. lia. Qed.

Lemma byMentions_trans (a b c : string * AspectResult) :
  (mentions (snd b) <=? mentions (snd a)) = true ->
  (mentions (snd c) <=? mentions (snd b)) = true ->
  (mentions (snd c) <=? mentions (snd a)) = true.
Proof. rewrite !Nat.leb_le. lia. Qed.

(** X12.  The summary is [null] exactly when no aspect was found.
    Otherwise it names two aspects (the only one when there is one), in
    non-increasing order of mentions, each with the mentions and the score
    it has in the result. *)
Theorem summary_names_the_two_most_mentioned (aspectResults : Obj AspectResult) :
  match generateAspectSummary aspectResults with
  | None => aspectResults = []
  | Some s =>
      aspectResults <> [] /\
      List.length (dominantAspects s) = Nat.min 2 (List.length aspectResults) /\
      StronglySorted (fun a b => dmentions b <= dmentions a) (dominantAspects s) /\
      Forall (fun d => exists r, In (aspect d, r) aspectResults /\
                                 dmentions d = mentions r /\ dscore d = score r)
        (dominantAspects s)
  end.
Proof.
  unfold generateAspectSummary. cbv zeta.
  destruct aspectResults as [|e rs]; [reflexivity|].
  set (l := e :: rs). cbn [List.length Nat.eqb]. cbn [dominantAspects].
  set (before := fun a b : string * AspectResult =>
                   mentions (snd b) <=? mentions (snd a)).
  split; [discriminate|]. split; [|split]; cbn [dominantAspects].
  - unfold JsArray.slice0. now rewrite length_map, length_firstn, sort_length.
  - apply StronglySorted_map. unfold JsArray.slice0.
    apply StronglySorted_firstn. cbn [dmentions].
    pose proof (sort_ordered before byMentions_total byMentions_trans l) as H.
    induction H as [|x l' Hs IH Hx]; constructor; [assumption|].
    eapply Forall_impl; [|exact Hx]. intros b Hb. now apply Nat.leb_le.
  - apply Forall_forall. intros d Hd. apply in_map_iff in Hd.
    destruct Hd as ([a r] & <- & Hin). cbn [aspect dmentions dscore fst snd].
    exists r. repeat split.
    apply (sort_In_iff before). unfold JsArray.slice0 in Hin.
    rewrite <- (firstn_skipn 2). apply in_or_app. now left.
Qed.

End AspectSummaryFacts.

(* ------------------------------------------------------------------ *)
(** ** Feedback counters *)

Section CollectorFacts.

Import FeedbackCollector.
Local Open Scope nat_scope.

(** The counters after the feedback [fs], collected in that order. *)
Lemma updateMetrics_fold fs : forall m,
  let m' := fold_left (fun m f => updateMetrics f m) fs m in
  totalFeedback m' = totalFeedback m + List.length fs /\
  criticalIssues m' = criticalIssues m + List.length (filter isCritical fs) /\
  bugReports m' + featureRequests m' + performanceIssues m'
  <= bugReports m + featureRequests m + performanceIssues m + List.length fs /\
  bugReports m <= bugReports m'.
Proof.
  induction fs as [|f fs IH]; intros m; cbv zeta; cbn [fold_left filter List.length].
  - lia.
  - specialize (IH (updateMetrics f m)). cbv zeta in IH.
    destruct IH as (H1 & H2 & H3 & H4). rewrite H1, H2.
    unfold updateMetrics in *.
    cbn [totalFeedback criticalIssues bugReports featureRequests performanceIssues] in *.
    assert (Hty : (if String.eqb (type f) "bug" then 1 else 0)
                  + (if String.eqb (type f) "feature" then 1 else 0)
                  + (if String.eqb (type f) "performance" then 1 else 0) <= 1).
    { destruct (String.eqb (type f) "bug") eqn:E1;
      destruct (String.eqb (type f) "feature") eqn:E2;
      destruct (String.eqb (type f) "performance") eqn:E3;
      try lia;
      rewrite ?String.eqb_eq in *; congruence. }
    destruct (String.eqb (type f) "bug"), (String.eqb (type f) "feature"),
      (String.eqb (type f) "performance"), (isCritical f);
      cbn [List.length]; lia.
Qed.

(** X13.  Starting from a fresh (or reset) collector, after any sequence
    of feedback the total is the number of feedback received, the critical
    counter is the number of critical ones, and the bug, feature and
    performance counters together never exceed the total (feedback of any
    other type is counted in the total only). *)
Theorem metrics_count_the_feedback (fs : list Feedback) :
  let m := fold_left (fun m f => updateMetrics f m) fs initialMetrics in
  totalFeedback m = List.length fs /\
  criticalIssues m = List.length (filter isCritical fs) /\
  bugReports m + featureRequests m + performanceIssues m <= totalFeedback m /\
  criticalIssues m <= totalFeedback m.
Proof.
  cbv zeta. destruct (updateMetrics_fold fs initialMetrics) as (H1 & H2 & H3 & _).
  cbv zeta in *. cbn [initialMetrics totalFeedback criticalIssues bugReports
                      featureRequests performanceIssues] in *.
  pose proof (filter_length_le isCritical fs). lia.
Qed.

End CollectorFacts.

(* ------------------------------------------------------------------ *)
(** ** Error patterns and their recommendations *)

Section ErrorPatternFacts.

Import FeedbackAnalyzer FeedbackSpec FeedbackMore.
Local Open Scope R_scope.

Lemma Rleb_le x y : Rleb x y = true <-> x <= y.
Proof. unfold Rleb. destruct (Rle_dec x y); intuition discriminate. Qed.

Lemma byPriority_total (a b : ErrorPattern) :
  Rleb (priority b) (priority a) = true \/ Rleb (priority a) (priority b) = true.
Proof. rewrite !Rleb_le. lra. Qed.

Lemma byPriority_trans (a b c : ErrorPattern) :
  Rleb (priority b) (priority a) = true ->
  Rleb (priority c) (priority b) = true ->
  Rleb (priority c) (priority a) = true.
Proof. rewrite !Rleb_le. lra. Qed.

Lemma surfaced_as_map now errors nErrors :
  flat_map (fun e =>
    let (errorType, data) := e : string * ErrorData in
    if (errorFrequency <=? count data)%nat then
      [{| type := errorType;
          p_count := count data;
          frequency :=
            if (nErrors =? 0)%nat then None
            else Some (INR (count data) / INR nErrors);
          p_lastOccurrence := lastOccurrence data;
          affectedEndpoints := endpoints data;
          priority := calculatePriority now data |}]
    else []) errors
  = map (patternOfEntry now nErrors) (filter isFrequent errors).
Proof.
  induction errors as [|[t d] l IH]; cbn [flat_map filter]; [reflexivity|].
  rewrite IH.
  change (isFrequent (t, d)) with (errorFrequency <=? count d)%nat.
  destruct (errorFrequency <=? count d)%nat; reflexivity.
Qed.

(** X14.  The error patterns reported are exactly the error types seen at
    least five times, one pattern per type with its count, last
    occurrence, endpoints and priority, arranged by non-increasing
    priority; a type seen fewer than five times is never reported. *)
Theorem error_patterns_are_the_frequent_types
    (now : Z) (errors : list (string * ErrorData)) (nErrors : nat) :
  Permutation (analyzeErrorPatterns now errors nErrors)
    (map (patternOfEntry now nErrors) (filter isFrequent errors)) /\
  StronglySorted (fun a b => priority b <= priority a)
    (analyzeErrorPatterns now errors nErrors) /\
  Forall (fun p => (5 <= p_count p)%nat) (analyzeErrorPatterns now errors nErrors).
Proof.
  unfold analyzeErrorPatterns. cbv zeta. rewrite surfaced_as_map.
  set (before := fun a b : ErrorPattern => Rleb (priority b) (priority a)).
  split; [apply sort_perm|]. split.
  - pose proof (sort_ordered before byPriority_total byPriority_trans
                  (map (patternOfEntry now nErrors) (filter isFrequent errors))) as H.
    induction H as [|x l Hs IH Hx]; constructor; [assumption|].
    eapply Forall_impl; [|exact Hx]. intros b Hb. now apply Rleb_le.
  - apply Forall_forall. intros p Hp.
    apply (proj1 (sort_In_iff before _ _)) in Hp.
    apply in_map_iff in Hp. destruct Hp as (e & <- & He).
    apply filter_In in He. destruct He as [_ He].
    cbn [p_count patternOfEntry]. now apply Nat.leb_le in He.
Qed.

(** X15.  For an error type seen at least five times the band of the
    priority depends on the severity alone: the priority of a critical one
    is at least 0.8, and the priority of any other one whose last
    occurrence lies before the instant of the analysis is between 0.6 and
    0.8 (high), however often and however long ago it occurred. *)
Theorem tier_follows_severity (now : Z) (data : ErrorData) :
  (errorFrequency <= count data)%nat ->
  if isCritical (severity data)
  then 0.8 <= calculatePriority now data
  else (lastOccurrence data < now)%Z -> 0.6 < calculatePriority now data < 0.8.
Proof.
  intros H.
  assert (Hf : frequencyScore data = 1).
  { unfold frequencyScore. apply le_INR in H.
    rewrite errorFrequency_value in *. apply Rmin_right.
    pose proof (pos_INR (count data)). lra. }
  pose proof (recencyScore_pos now data) as Hr.
  unfold calculatePriority, severityScore. rewrite Hf.
  destruct (isCritical (severity data)); [lra|].
  intros Hlast. split; [lra|].
  assert (recencyScore now data < 1); [|lra].
  unfold recencyScore. rewrite dayMs_value, <- exp_0.
  apply exp_increasing.
  assert (0 < IZR (now - lastOccurrence data)) by (apply IZR_lt; lia).
  lra.
Qed.

(** The theorem at work on a stale, non-critical error. *)
Lemma tier_follows_severity_witness :
  0.6 < calculatePriority 3600000 staleError < 0.8.
Proof.
  assert (H : (errorFrequency <= count staleError)%nat)
    by (cbn [count staleError]; unfold errorFrequency; lia).
  pose proof (tier_follows_severity 3600000 staleError H) as T.
  cbn [isCritical severity staleError lastOccurrence] in T.
  apply T. lia.
Defined.

Lemma recommendError_high_priority recs p :
  0.6 < priority p ->
  (List.length (immediate (recommendError recs p))
   + List.length (high (recommendError recs p))
   = S (List.length (immediate recs) + List.length (high recs)))%nat.
Proof.
  intros H. unfold recommendError.
  destruct (Rleb 0.8 (priority p)) eqn:E1; cbn [immediate high].
  - rewrite length_app. cbn [List.length]. lia.
  - assert (E2 : Rleb 0.6 (priority p) = true) by (apply Rleb_le; lra).
    rewrite E2. cbn [immediate high]. rewrite length_app. cbn [List.length]. lia.
Qed.

Lemma recommendErrors_count ps : forall recs,
  Forall (fun p => 0.6 < priority p) ps ->
  (List.length (immediate (recommendErrors ps recs))
   + List.length (high (recommendErrors ps recs))
   = List.length (immediate recs) + List.length (high recs) + List.length ps)%nat.
Proof.
  unfold recommendErrors.
  induction ps as [|p ps IH]; intros recs H; cbn [fold_left List.length]; [lia|].
  inversion H as [|? ? Hp Hps]; subst.
  rewrite IH by assumption. rewrite recommendError_high_priority by assumption. lia.
Qed.

(** X16.  Every error type seen at least five times gets exactly one
    recommendation, in the immediate or the high tier, and no other error
    type gets any: the two tiers grow by the number of frequent types. *)
Theorem one_recommendation_per_frequent_type
    (now : Z) (errors : list (string * ErrorData)) (nErrors : nat)
    (recs : Recommendations) :
  let out := generateErrorRecommendations now errors nErrors recs in
  (List.length (immediate out) + List.length (high out)
   = List.length (immediate recs) + List.length (high recs)
     + List.length (filter isFrequent errors))%nat.
Proof.
  cbv zeta. unfold generateErrorRecommendations.
  rewrite recommendErrors_count.
  - f_equal.
    destruct (error_patterns_are_the_frequent_types now errors nErrors) as [H _].
    apply Permutation_length in H. now rewrite H, length_map.
  - apply Forall_forall. intros p. apply analyzeErrorPatterns_priority.
Qed.

End ErrorPatternFacts.

(* ------------------------------------------------------------------ *)
(** ** Slow endpoints and the summary of the feedback report *)

Section SlowEndpointFacts.

Import JsNumber FeedbackAnalyzer FeedbackMore.

Lemma threshold_as_spec_float :
  Prim2SF performanceThreshold = S754_finite false 8796093022208000 (-42).
Proof. vm_compute. reflexivity. Qed.

Lemma float_zero_as_spec_float : Prim2SF 0 = S754_zero false.
Proof. vm_compute. reflexivity. Qed.

(** A double above the threshold is a number, *)
Lemma above_not_nan d :
  PrimFloat.ltb performanceThreshold d = true -> PrimFloat.is_nan d = false.
Proof.
  unfold PrimFloat.is_nan.
  rewrite FloatAxioms.ltb_spec, FloatAxioms.eqb_spec, threshold_as_spec_float.
  unfold SFltb, SFeqb, SFcompare.
  destruct (Prim2SF d) as [s|s| |s m e]; try destruct s;
    try (intros; reflexivity); try (intros; discriminate).
  intros _. now rewrite Z.compare_refl, Pos.compare_cont_refl.
Qed.

(** is positive, *)
Lemma above_positive d :
  PrimFloat.ltb performanceThreshold d = true -> PrimFloat.ltb 0 d = true.
Proof.
  rewrite !FloatAxioms.ltb_spec, threshold_as_spec_float, float_zero_as_spec_float.
  unfold SFltb, SFcompare.
  destruct (Prim2SF d) as [s|s| |s m e]; try destruct s;
    try (intros; reflexivity); intros; discriminate.
Qed.

(** and is not a zero. *)
Lemma above_not_zero d :
  PrimFloat.ltb performanceThreshold d = true -> is_zero d = false.
Proof.
  unfold is_zero.
  rewrite FloatAxioms.ltb_spec, FloatAxioms.eqb_spec, threshold_as_spec_float,
    float_zero_as_spec_float.
  unfold SFltb, SFeqb, SFcompare.
  destruct (Prim2SF d) as [s|s| |s m e]; try destruct s;
    try (intros; reflexivity); intros; discriminate.
Qed.

(** The first maximum of an entry is the duration of its first request. *)
Lemma Math_max_first d :
  PrimFloat.ltb performanceThreshold d = true -> Math_max 0 d = d.
Proof.
  intros H. unfold Math_max.
  rewrite (above_not_nan d H), (above_positive d H). reflexivity.
Qed.

(** The maximum of two doubles above the threshold is above it. *)
Lemma Math_max_above a d :
  PrimFloat.ltb performanceThreshold a = true ->
  PrimFloat.ltb performanceThreshold d = true ->
  PrimFloat.ltb performanceThreshold (Math_max a d) = true.
Proof.
  intros Ha Hd. unfold Math_max.
  rewrite (above_not_nan a Ha), (above_not_nan d Hd), (above_not_zero a Ha).
  cbn [orb].
  destruct (PrimFloat.ltb a d); [exact Hd|].
  destruct (PrimFloat.ltb d a); exact Ha.
Qed.

Lemma recordSlow_keys m key d k :
  In k (map fst (recordSlow m key d)) -> k = key \/ In k (map fst m).
Proof.
  induction m as [|[k0 data] m IH]; cbn [recordSlow map fst In].
  - intros [<-|[]]. now left.
  - destruct (String.eqb k0 key); cbn [map fst In].
    + intros H. now right.
    + intros [<-|H]; [right; now left|].
      destruct (IH H) as [->|H']; [now left | right; now right].
Qed.

Lemma recordSlow_NoDup m key d :
  NoDup (map fst m) -> NoDup (map fst (recordSlow m key d)).
Proof.
  induction m as [|[k0 data] m IH]; cbn [recordSlow map fst]; intros H.
  - constructor; [intros []|constructor].
  - inversion H as [|? ? Hk Hm]; subst.
    destruct (String.eqb k0 key) eqn:E; cbn [map fst]; [exact H|].
    constructor; [|now apply IH].
    intros Hin. apply recordSlow_keys in Hin. destruct Hin as [->|Hin].
    + rewrite String.eqb_refl in E. discriminate E.
    + now apply Hk.
Qed.

Lemma recordSlow_total m key d :
  slowTotal (recordSlow m key d) = S (slowTotal m).
Proof.
  unfold slowTotal, list_sum.
  induction m as [|[k0 data] m IH]; cbn [recordSlow map fold_right snd];
    [reflexivity|].
  destruct (String.eqb k0 key); cbn [map fold_right snd s_count].
  - lia.
  - rewrite IH. lia.
Qed.

Lemma recordSlow_ok seen perf m :
  isSlow perf = true ->
  In perf seen ->
  Forall (slowOk seen) m ->
  Forall (slowOk seen) (recordSlow m (endpointKey perf) (perf_duration perf)).
Proof.
  intros Hs Hin. unfold isSlow in Hs.
  induction 1 as [|[k data] m Hk Hm IH]; cbn [recordSlow].
  - constructor; [|constructor].
    unfold slowOk. cbn [fst snd s_count maxDuration].
    rewrite (Math_max_first _ Hs).
    split; [lia|]. split; [exact Hs|]. exists perf. now repeat split.
  - destruct (String.eqb k (endpointKey perf)); constructor; try assumption.
    destruct Hk as (H1 & H2 & H3).
    unfold slowOk in *. cbn [fst snd s_count maxDuration] in *.
    split; [lia|]. split; [now apply Math_max_above | exact H3].
Qed.

Lemma slowOk_more seen seen' m :
  (forall perf, In perf seen -> In perf seen') ->
  Forall (slowOk seen) m -> Forall (slowOk seen') m.
Proof.
  intros Hsub. apply Forall_impl. intros e (H1 & H2 & perf & H3 & H4).
  split; [exact H1|]. split; [exact H2|]. exists perf. split; [now apply Hsub | exact H4].
Qed.

(** The invariant of [performance.forEach]. *)
Lemma slowEndpoints_invariant perfs : forall seen m,
  NoDup (map fst m) /\ Forall (slowOk seen) m /\
  slowTotal m = List.length (filter isSlow seen) ->
  NoDup (map fst (fold_left visitPerf perfs m)) /\
  Forall (slowOk (seen ++ perfs)) (fold_left visitPerf perfs m) /\
  slowTotal (fold_left visitPerf perfs m)
  = List.length (filter isSlow (seen ++ perfs)).
Proof.
  induction perfs as [|perf perfs IH]; intros seen m (Hn & Hf & Ht).
  - rewrite app_nil_r. cbn [fold_left]. now repeat split.
  - cbn [fold_left].
    replace (seen ++ perf :: perfs)%list with ((seen ++ [perf]) ++ perfs)%list
      by (rewrite <- app_assoc; reflexivity).
    apply IH.
    assert (Hsub : forall p, In p seen -> In p (seen ++ [perf])%list)
      by (intros p Hp; apply in_or_app; now left).
    rewrite filter_app, length_app. cbn [filter].
    unfold visitPerf. fold (isSlow perf). fold (endpointKey perf).
    destruct (isSlow perf) eqn:E.
    + split; [now apply recordSlow_NoDup|]. split.
      * apply recordSlow_ok; [exact E| |now apply (slowOk_more seen)].
        apply in_or_app. right. now left.
      * rewrite recordSlow_total, Ht. cbn [List.length]. lia.
    + split; [exact Hn|]. split; [now apply (slowOk_more seen)|].
      rewrite Ht. cbn [List.length]. lia.
Qed.

(** X17.  The map of slow endpoints that [analyzePerformancePatterns]
    builds has one entry for each key: every entry stands for at least
    one request (so the average is never a quotient by zero), carries a
    maximum above the 2000 ms threshold and the key of a slow request, and
    the counts of the entries add up to the number of slow requests. *)
Theorem slow_endpoints_count_the_slow_requests (perfs : list Perf) :
  let m := slowEndpoints perfs in
  NoDup (map fst m) /\
  Forall (fun e =>
            (1 <= s_count (snd e))%nat /\
            PrimFloat.ltb performanceThreshold (maxDuration (snd e)) = true /\
            exists perf, In perf perfs /\ isSlow perf = true /\
                         fst e = endpointKey perf) m /\
  slowTotal m = List.length (filter isSlow perfs).
Proof.
  cbv zeta. unfold slowEndpoints.
  apply (slowEndpoints_invariant perfs [] []).
  split; [constructor|]. split; [constructor|reflexivity].
Qed.

(** Without a slow request there is no pattern; with one, the first
    pattern needs [calculatePerformancePriority], which is not defined. *)
Lemma analyzePerformancePatterns_outcome (Extra : Type) (this : State Extra) (now : Z) :
  analyzePerformancePatterns Extra this now =
  match slowEndpoints (performance Extra this) with
  | [] => Ok []
  | _ :: _ =>
      Throw (TypeError "this.calculatePerformancePriority is not a function")
  end.
Proof.
  unfold analyzePerformancePatterns.
  destruct (slowEndpoints (performance Extra this)); reflexivity.
Qed.

Variables Value Extra : Type.
Variables calculateSentimentTrend getTopComplaints identifyEmergingIssues
  : State Extra -> Z -> list UserFeedback -> Value.




End SlowEndpointFacts.

(* ------------------------------------------------------------------ *)
(** ** The confidence is capped *)

Section ConfidenceFacts.

Import JsNumber.

Lemma one_as_spec_float : Prim2SF 1 = S754_finite false 4503599627370496 (-52).
Proof. vm_compute. reflexivity. Qed.

Lemma zero_as_spec_float : Prim2SF 0 = S754_zero false.
Proof. vm_compute. reflexivity. Qed.

Lemma SFltb_one_asym x :
  SFltb x (S754_finite false 4503599627370496 (-52)) = true ->
  SFltb (S754_finite false 4503599627370496 (-52)) x = false.
Proof.
  unfold SFltb, SFcompare.
  destruct x as [s|s| |s m e]; try destruct s;
    try (intros; reflexivity); try (intros; discriminate).
  rewrite (Z.compare_antisym e (-52)).
  destruct (e ?= -52)%Z; cbv beta iota delta [CompOpp];
    try (intros; reflexivity); try (intros; discriminate).
  pose proof (Pos.compare_cont_antisym m 4503599627370496 Eq) as H.
  change (CompOpp Eq) with Eq in H. rewrite <- H. clear H.
  destruct (Pos.compare_cont Eq m 4503599627370496); cbv beta iota delta [CompOpp];
    try (intros; reflexivity); intros; discriminate.
Qed.

Lemma SFeqb_zero_lt_one x :
  SFeqb x (S754_zero false) = true ->
  SFltb x (S754_finite false 4503599627370496 (-52)) = true.
Proof.
  unfold SFeqb, SFltb, SFcompare.
  destruct x as [s|s| |s m e]; try destruct s;
    try (intros; reflexivity); intros; discriminate.
Qed.

(** [Math.min(a, 1)] is never above 1, whatever the double [a]. *)
Lemma Math_min_one a : PrimFloat.ltb 1 (Math_min a 1) = false.
Proof.
  unfold Math_min.
  destruct (PrimFloat.is_nan a || PrimFloat.is_nan 1); [reflexivity|].
  destruct (PrimFloat.ltb a 1) eqn:E1.
  - rewrite FloatAxioms.ltb_spec, one_as_spec_float in *. now apply SFltb_one_asym.
  - destruct (PrimFloat.ltb 1 a) eqn:E2; [reflexivity|].
    destruct (is_zero a) eqn:E3; [|exact E2].
    unfold is_zero in E3. rewrite FloatAxioms.eqb_spec, zero_as_spec_float in E3.
    apply SFeqb_zero_lt_one in E3.
    rewrite <- one_as_spec_float, <- FloatAxioms.ltb_spec in E3.
    congruence.
Qed.

(** X19.  The confidence of a sentiment result never exceeds 1, however
    many keywords the text holds, and so does the confidence of every
    aspect of an aspect classification. *)
Theorem confidence_never_exceeds_one (text : string) :
  PrimFloat.ltb 1 (SentimentAnalysis.confidence
                     (SentimentAnalysis.analyzeSentiment text)) = false /\
  Forall (fun e => PrimFloat.ltb 1 (AspectAnalysis.confidence (snd e)) = false)
    (AspectAnalysis.aspects (AspectAnalysis.analyzeAspects text)).
Proof.
  assert (H : forall t, PrimFloat.ltb 1 (SentimentAnalysis.confidence
                          (SentimentAnalysis.analyzeSentiment t)) = false).
  { intros t. unfold SentimentAnalysis.analyzeSentiment.
    destruct (fold_left SentimentAnalysis.step (SentimentAnalysis.words t) _)
      as [total matched].
    cbv zeta. cbn [SentimentAnalysis.confidence]. apply Math_min_one. }
  split; [apply H|].
  unfold AspectAnalysis.analyzeAspects. cbv zeta. cbn [AspectAnalysis.aspects].
  apply Forall_forall. intros [a r] Hin.
  apply in_flat_map in Hin. destruct Hin as ([a' d] & _ & Hin).
  cbn [fst snd] in Hin.
  destruct (0 <? List.length (AspectAnalysis.sentences d))%nat; [|contradiction].
  destruct Hin as [Hin|[]]. injection Hin as <- <-.
  cbn [snd]. unfold AspectAnalysis.resultOf. cbv zeta.
  cbn [AspectAnalysis.confidence]. apply H.
Qed.

End ConfidenceFacts.
